(** * DeepCanvasAI: the tool-call broker and its collaborators

    A shallow embedding of the JavaScript sources

      - js/tools/tool-manager.js          (module [Broker])
      - js/integrations/tool-manager.js   (modules [ConnectorTools],
                                           [ConnectorApps])
      - js/mcp/mcp-client.js              (module [MCP])
      - SecondMeMemory (second-me-memory) (module [Memory])
      - js/integrations/second-me-adapter.js   (module [Adapter])
      - registerVeo2Tools (veo2-integration)   (module [Veo2])
      - js/video/veo2-service.js, processVertexResponse
                                          (module [Veo2Service])

    JavaScript values are an inductive type, an [async] function is a
    function into [completion] (the settled promise: fulfilled with a value
    or rejected with the thrown value), a [Map] is an insertion-ordered
    association list, and a plain object used as a dictionary is a [gmap]
    of its own properties, read through [Object_prototype] for the names
    it does not hold. *)

From Stdlib Require Import ZArith Ascii String DecimalString.
From stdpp Require Import base option list strings gmap.

Set Warnings "-register-all".
Local Open Scope Z_scope.

(* ===================================================================== *)
(** ** JavaScript values *)
(* ===================================================================== *)

Module JS.

(** Numbers are restricted to the integers: the sources only compare them
    for truthiness, copy them around and print them; the integers a
    JavaScript number holds exactly are singled out by [printable] below.
    [VError name message] is an
    instance of [Error] (or of a subclass such as [TypeError]); an object
    literal is [VObject] with its own properties in insertion order;
    [VFunction name length] is a function the engine provides, known by its
    [name] and [length] only. *)
Inductive value : Type :=
| VUndefined
| VNull
| VBool (b : bool)
| VNumber (n : Z)
| VString (s : string)
| VArray (items : list value)
| VObject (fields : list (string * value))
| VError (name message : string)
| VFunction (name : string) (length : Z).

(** The settled state of a promise (or the completion of a block). *)
Inductive completion (A : Type) : Type :=
| Return (a : A)
| Throw (e : value).
Arguments Return {A} a.
Arguments Throw {A} e.

Definition bind {A B} (c : completion A) (k : A -> completion B) : completion B :=
  match c with
  | Return a => k a
  | Throw e => Throw e
  end.

(** [try { body } catch (e) { handler e }] *)
Definition try_catch {A} (body : completion A) (handler : value -> completion A)
  : completion A :=
  match body with
  | Return a => Return a
  | Throw e => handler e
  end.

Notation "x <- c1 ;; c2" := (bind c1 (fun x => c2))
  (at level 100, c1 at next level, right associativity).

(** ToBoolean *)
Definition truthy (v : value) : bool :=
  match v with
  | VUndefined | VNull => false
  | VBool b => b
  | VNumber n => negb (n =? 0)
  | VString s => negb (String.eqb s EmptyString)
  | VArray _ | VObject _ | VError _ _ | VFunction _ _ => true
  end.

(** [a || b] *)
Definition logical_or (a b : value) : value := if truthy a then a else b.

(** [v === undefined || v === null] *)
Definition nullish (v : value) : bool :=
  match v with
  | VUndefined | VNull => true
  | _ => false
  end.

(** [a ?? b] *)
Definition coalesce (a b : value) : value := if nullish a then b else a.

(** Own properties of an object literal. *)
Fixpoint obj_get (k : string) (o : list (string * value)) : value :=
  match o with
  | [] => VUndefined
  | (k', v) :: o' => if String.eqb k k' then v else obj_get k o'
  end.

Fixpoint obj_has (k : string) (o : list (string * value)) : bool :=
  match o with
  | [] => false
  | (k', _) :: o' => String.eqb k k' || obj_has k o'
  end.

(** [o[k] = v]: an existing key keeps its place, a new one goes last. *)
Fixpoint obj_set (k : string) (v : value) (o : list (string * value))
  : list (string * value) :=
  match o with
  | [] => [(k, v)]
  | (k', v') :: o' =>
      if String.eqb k k' then (k', v) :: o' else (k', v') :: obj_set k v o'
  end.

(** [{...dst, ...src}] continued from an object under construction. *)
Definition obj_spread (src dst : list (string * value)) : list (string * value) :=
  fold_left (fun o kv => obj_set kv.1 kv.2 o) src dst.

(** Two objects under construction with the same keys, whose values may
    differ only at keys that are still to be overwritten. *)
Definition agree (pending : list string) (o1 o2 : list (string * value)) : Prop :=
  Forall2 (fun a b => a.1 = b.1 /\ (a.2 = b.2 \/ a.1 ∈ pending)) o1 o2.

Definition type_name (v : value) : string :=
  match v with
  | VUndefined => "undefined"
  | _ => "null"
  end.

(** The message of the TypeError raised by reading a property of
    [undefined] or [null] (V8's wording). *)
Definition type_error_read (v : value) (k : string) : value :=
  VError "TypeError"
    ("Cannot read properties of " +:+ type_name v +:+ " (reading '" +:+ k +:+ "')").

(** [v.k] for a property name [k] that is not a built-in member
    (the sources read [output] and [message] only). *)
Definition get_prop (v : value) (k : string) : completion value :=
  match v with
  | VUndefined | VNull => Throw (type_error_read v k)
  | VObject o => Return (obj_get k o)
  | VError n m =>
      Return (if String.eqb k "message" then VString m
              else if String.eqb k "name" then VString n
              else VUndefined)
  | VFunction n l =>
      Return (if String.eqb k "name" then VString n
              else if String.eqb k "length" then VNumber l
              else VUndefined)
  | _ => Return VUndefined
  end.

(** Whether a completion is a throw of [undefined] or [null], the two
    values whose properties a [catch] block cannot read. *)
Definition throws_nullish {A} (c : completion A) : bool :=
  match c with
  | Throw e => nullish e
  | Return _ => false
  end.

(** [new Error(message)] *)
Definition new_Error (message : string) : value := VError "Error" message.

Definition string_of_Z (n : Z) : string := NilZero.string_of_int (Z.to_int n).

Definition join (sep : string) (parts : list string) : string :=
  match parts with
  | [] => EmptyString
  | p :: ps => fold_left (fun acc q => acc +:+ sep +:+ q) ps p
  end.

(** [String(v)] for a [printable] value (see below): a number is printed
    in decimal and an object by the inherited [toString]. *)
Fixpoint to_String (v : value) : string :=
  match v with
  | VUndefined => "undefined"
  | VNull => "null"
  | VBool true => "true"
  | VBool false => "false"
  | VNumber n => string_of_Z n
  | VString s => s
  | VArray items =>
      join "," (map (fun x => if nullish x then EmptyString else to_String x) items)
  | VObject _ => "[object Object]"
  | VError n m =>
      if String.eqb m EmptyString then n
      else if String.eqb n EmptyString then m
      else n +:+ ": " +:+ m
  | VFunction n _ => "function " +:+ n +:+ "() { [native code] }"
  end.

(** A [Map]: keys are unique and keep their insertion order. *)
Section Map.
Context {V : Type}.

Fixpoint map_get (k : string) (m : list (string * V)) : option V :=
  match m with
  | [] => None
  | (k', v) :: m' => if String.eqb k k' then Some v else map_get k m'
  end.

Definition map_has (k : string) (m : list (string * V)) : bool :=
  match map_get k m with
  | Some _ => true
  | None => false
  end.

Fixpoint map_set (k : string) (v : V) (m : list (string * V)) : list (string * V) :=
  match m with
  | [] => [(k, v)]
  | (k', v') :: m' =>
      if String.eqb k k' then (k', v) :: m' else (k', v') :: map_set k v m'
  end.
End Map.

Definition is_lower (c : ascii) : bool :=
  (97 <=? nat_of_ascii c)%nat && (nat_of_ascii c <=? 122)%nat.

Fixpoint all_lower (s : string) : bool :=
  match s with
  | EmptyString => true
  | String c s' => is_lower c && all_lower s'
  end.

(** The longest run of [a-z] at the start of [s], and what follows it. *)
Fixpoint span_lower (s : string) : string * string :=
  match s with
  | String c s' =>
      if is_lower c then
        let (p, rest) := span_lower s' in (String c p, rest)
      else (EmptyString, s)
  | EmptyString => (EmptyString, EmptyString)
  end.

(** [name.match(/^([a-z]+)_/)], reduced to its capture group: the greedy
    run of lowercase letters must be non-empty and be followed by an
    underscore (backtracking cannot help, the run holds no underscore). *)
Definition match_app_prefix (name : string) : option string :=
  match span_lower name with
  | (String c p, String "_" _) => Some (String c p)
  | _ => None
  end.

(** [items.flat()]: one level of nesting is removed. *)
Definition flat (items : list value) : list value :=
  flat_map (fun x => match x with VArray ys => ys | _ => [x] end) items.

(** The own enumerable properties that [{...v}] copies. *)
Definition own_enumerable (v : value) : list (string * value) :=
  match v with
  | VObject fields => fields
  | VArray items =>
      imap (fun i x => (NilZero.string_of_uint (Nat.to_uint i), x)) items
  | _ => []
  end.

(** The TypeError raised by [const { k, ... } = source] when the value is
    [undefined] or [null] (V8's wording). *)
Definition type_error_destructure (v : value) (k source : string) : value :=
  VError "TypeError"
    ("Cannot destructure property '" +:+ k +:+ "' of '" +:+ source
     +:+ "' as it is " +:+ type_name v +:+ ".").

(** [const { k, ... } = source]: the check that comes before the reads. *)
Definition destructure (v : value) (k source : string) : completion unit :=
  if nullish v then Throw (type_error_destructure v k source) else Return tt.

(** The members every plain object inherits from [Object.prototype]:
    methods, and the accessor [__proto__] that yields the prototype itself,
    an object without enumerable properties of its own. *)
Definition Object_prototype (k : string) : option value :=
  if String.eqb k "__proto__" then Some (VObject [])
  else if String.eqb k "constructor" then Some (VFunction "Object" 1)
  else if String.eqb k "__defineGetter__" then Some (VFunction "__defineGetter__" 2)
  else if String.eqb k "__defineSetter__" then Some (VFunction "__defineSetter__" 2)
  else if String.eqb k "__lookupGetter__" then Some (VFunction "__lookupGetter__" 1)
  else if String.eqb k "__lookupSetter__" then Some (VFunction "__lookupSetter__" 1)
  else if String.eqb k "hasOwnProperty" then Some (VFunction "hasOwnProperty" 1)
  else if String.eqb k "isPrototypeOf" then Some (VFunction "isPrototypeOf" 1)
  else if String.eqb k "propertyIsEnumerable"
  then Some (VFunction "propertyIsEnumerable" 1)
  else if String.eqb k "toString" then Some (VFunction "toString" 0)
  else if String.eqb k "toLocaleString" then Some (VFunction "toLocaleString" 0)
  else if String.eqb k "valueOf" then Some (VFunction "valueOf" 0)
  else None.

(** [d[k]] for a plain object [d] used as a dictionary: an own property,
    else the member inherited under that name, else [undefined]. *)
Definition dict_get (d : gmap string value) (k : string) : value :=
  match d !! k with
  | Some v => v
  | None => default VUndefined (Object_prototype k)
  end.

(** The values that [String] prints the way [to_String] does: their
    numbers are integers that a JavaScript number holds exactly (at most
    2^53 in absolute value), which are printed in decimal, and their
    objects have no [toString] of their own, so that the inherited one
    prints them.  What an array prints depends on its items. *)
Fixpoint printable (v : value) : bool :=
  match v with
  | VNumber n => Z.abs n <=? 9007199254740992
  | VArray items => forallb printable items
  | VObject fields => negb (obj_has "toString" fields)
  | _ => true
  end.

End JS.

Import JS.

(* ===================================================================== *)
(** ** js/tools/tool-manager.js: registry and tool-call broker *)
(* ===================================================================== *)

Module Broker.

(** What [getDeclaration()] returns and what a connector tool carries in
    its [function] field. *)
Record declaration : Type := {
  decl_name : string;
  decl_description : string;
  decl_parameters : value
}.

(** A local tool instance; [getDeclaration] is optional in the source
    ([if (tool.getDeclaration)]). *)
Record tool : Type := {
  getDeclaration : option declaration;
  execute : value -> completion value
}.

Record composioTool : Type := { function : declaration }.

(** The imported [composioAPI] singleton (composio-api.js), by the three
    members this file calls. *)
Record composioAPI : Type := {
  isConnected : string -> bool;
  getTools : string -> completion (list composioTool);
  executeTool : string -> value -> completion value
}.

Record ToolManager : Type := {
  tools : list (string * tool);
  composioTools : list (string * list composioTool)
}.

Definition constructor : ToolManager := {| tools := []; composioTools := [] |}.

Inductive console : Type :=
| warn (line : string)
| info (line : string).

Definition registerTool (name : string) (toolInstance : tool) (this : ToolManager)
  : ToolManager * console :=
  if map_has name (tools this) then
    (this, warn ("Tool " +:+ name +:+ " is already registered"))
  else
    ({| tools := map_set name toolInstance (tools this);
        composioTools := composioTools this |},
     info ("Tool " +:+ name +:+ " registered successfully")).

Definition registerComposioTool (api : composioAPI) (appName : string)
  (this : ToolManager) : ToolManager :=
  if negb (isConnected api appName) then this
  else
    match getTools api appName with
    | Return ts =>
        {| tools := tools this;
           composioTools := map_set appName ts (composioTools this) |}
    | Throw _ => this
    end.

(** First loop: the declarations of the local tools that have an accessor. *)
Definition local_declarations (tools : list (string * tool)) : list declaration :=
  flat_map (fun entry =>
              match getDeclaration entry.2 with
              | Some d => [d]
              | None => []
              end) tools.

(** Second loop: the [function] of every connector tool, app by app. *)
Definition connector_declarations (composioTools : list (string * list composioTool))
  : list declaration :=
  flat_map (fun entry => map function entry.2) composioTools.

Definition getToolDeclarations (this : ToolManager) : list declaration :=
  local_declarations (tools this) ++ connector_declarations (composioTools this).

Record functionCall : Type := {
  name : string;
  args : value;
  id : value
}.

(** The object literal [{output, id, error}]. *)
Definition envelope (output id error : value) : value :=
  VObject [("output", output); ("id", id); ("error", error)].

(** [catch (error) { return {output: null, id, error: error.message} }] *)
Definition catch_envelope (id error : value) : completion value :=
  message <- get_prop error "message" ;;
  Return (envelope VNull id message).

Definition handleToolCall (api : composioAPI) (this : ToolManager)
  (call : functionCall) : completion value :=
  let appNameMatch := match_app_prefix (name call) in
  if match appNameMatch with
     | Some appName => isConnected api appName
     | None => false
     end
  then
    try_catch
      (result <- executeTool api (name call) (args call) ;;
       output <- get_prop result "output" ;;
       Return (envelope (logical_or output result) (id call) VNull))
      (catch_envelope (id call))
  else
    match map_get (name call) (tools this) with
    | None =>
        Return (envelope VNull (id call)
                  (VString ("Tool not found: " +:+ name call)))
    | Some tool =>
        try_catch
          (result <- execute tool (args call) ;;
           Return (envelope result (id call) VNull))
          (catch_envelope (id call))
    end.

(** How many declarations carry the name [n]. *)
Definition entries_named (n : string) (ds : list declaration) : nat :=
  length (List.filter (fun d => String.eqb (decl_name d) n) ds).

(** Registering a whole sequence, first to last. *)
Definition register_all (regs : list (string * tool)) (this : ToolManager)
  : ToolManager :=
  fold_left (fun m reg => (registerTool reg.1 reg.2 m).1) regs this.

End Broker.

(* ===================================================================== *)
(** ** js/integrations/tool-manager.js: connector tool source *)
(* ===================================================================== *)

Module ConnectorTools.

(** One call of the backend's tool listing: app, actions, tags. *)
Definition request : Type := string * list string * list string.

(** The imported [composioIntegration] singleton (composio-integration.js),
    by the members this file uses.  [backend n] is the answer of the tool
    listing to its call number [n], so that the answers may change over
    time; [calls] records the listing calls made so far.  The connection
    table does not change while tools are fetched. *)
Record composioIntegration : Type := {
  ci_initialized : bool;
  ci_initialize : completion unit;
  isConnected : string -> bool;
  backend : nat -> string -> list string -> list string -> completion value;
  calls : list request
}.

(** [toolCache] is a plain object used as a dictionary from cache keys to
    tool arrays: the map holds its own properties, and [dict_get] reads it
    the way [this.toolCache[cacheKey]] does, inherited members included. *)
Record ToolManager : Type := {
  initialized : bool;
  toolCache : gmap string value
}.

Definition state : Type := ToolManager * composioIntegration.

Definition constructor : ToolManager := {| initialized := false; toolCache := ∅ |}.

(** [await composioIntegration.initialize()] *)
Definition integration_initialize (ci : composioIntegration)
  : completion unit * composioIntegration :=
  match ci_initialize ci with
  | Return u =>
      (Return u,
       {| ci_initialized := true; ci_initialize := ci_initialize ci;
          isConnected := isConnected ci; backend := backend ci;
          calls := calls ci |})
  | Throw e => (Throw e, ci)
  end.

(** [await composioIntegration.getTools(appName, actions, tags)] *)
Definition integration_getTools (appName : string) (actions tags : list string)
  (ci : composioIntegration) : completion value * composioIntegration :=
  (backend ci (length (calls ci)) appName actions tags,
   {| ci_initialized := ci_initialized ci; ci_initialize := ci_initialize ci;
      isConnected := isConnected ci; backend := backend ci;
      calls := calls ci ++ [(appName, actions, tags)] |}).

Definition initialize (s : state) : bool * state :=
  let (this, ci) := s in
  let (r, ci') :=
    if negb (ci_initialized ci) then integration_initialize ci
    else (Return tt, ci) in
  match r with
  | Return _ => (true, ({| initialized := true; toolCache := toolCache this |}, ci'))
  | Throw _ => (false, (this, ci'))
  end.

(** [`${appName}_${actions.join(',')}_${tags.join(',')}`] *)
Definition cacheKey (appName : string) (actions tags : list string) : string :=
  appName +:+ "_" +:+ join "," actions +:+ "_" +:+ join "," tags.

(** [if (!this.initialized) { await this.initialize(); }] *)
Definition ensure_initialized (s : state) : state :=
  if negb (initialized s.1) then (initialize s).2 else s.

Definition getTools (appName : string) (actions tags : list string) (s : state)
  : completion value * state :=
  let s1 := ensure_initialized s in
  let (this, ci) := s1 in
  if negb (isConnected ci appName) then
    (Throw (new_Error ("Not connected to " +:+ appName +:+ ". Please connect first.")),
     s1)
  else
    let key := cacheKey appName actions tags in
    let cached := dict_get (toolCache this) key in
    if truthy cached then (Return cached, s1)
    else
      let (r, ci') := integration_getTools appName actions tags ci in
      match r with
      | Return tools =>
          (Return tools,
           ({| initialized := initialized this;
               toolCache := <[key := tools]> (toolCache this) |}, ci'))
      | Throw e => (Throw e, (this, ci'))
      end.

Definition clearCache (s : state) : state :=
  ({| initialized := initialized s.1; toolCache := ∅ |}, s.2).

(** Two states with the same connection table, backend and call log. *)
Definition same_backend (s s' : state) : Prop :=
  isConnected s'.2 = isConnected s.2 /\ backend s'.2 = backend s.2
  /\ calls s'.2 = calls s.2.

End ConnectorTools.

(* ===================================================================== *)
(** ** js/mcp/mcp-client.js: the personalization call path *)
(* ===================================================================== *)

Module MCP.

Record toolCall : Type := {
  name : string;
  id : value;
  arguments : value
}.

(** An entry of [this.tools]; a handler is a function of its arguments
    (what handlers of one batch do to each other while they are awaited
    together is not modelled). *)
Record registeredTool : Type := {
  description : value;
  handler : value -> completion value;
  schema : value
}.

Record MCPClient : Type := { tools : list (string * registeredTool) }.

(** [content] of a message event: [None] when it is falsy; [toolCalls] is
    [None] when the field is missing or is not an array. *)
Record messageContent : Type := { toolCalls : option (list toolCall) }.
Record messageEvent : Type := { content : option messageContent }.

Definition error_result (id : value) (name : string) (error : value) : value :=
  VObject [("toolCallId", id); ("name", VString name);
           ("status", VString "error"); ("error", error)].

Definition success_result (id : value) (name : string) (result : value) : value :=
  VObject [("toolCallId", id); ("name", VString name);
           ("status", VString "success"); ("result", result)].

(** [Promise.all]: the results in the order of the promises, or a
    rejection as soon as one of them rejects.  Completions carry no time:
    the promises are taken to settle in the order of the list, so that of
    several rejections the first of the list is the one reported. *)
Fixpoint Promise_all {A} (ps : list (completion A)) : completion (list A) :=
  match ps with
  | [] => Return []
  | p :: ps' =>
      x <- p ;;
      xs <- Promise_all ps' ;;
      Return (x :: xs)
  end.

Section Runtime.

(** The engine's [JSON.parse]: the decoded value, or the message of the
    SyntaxError it throws. *)
Variable JSON_parse : string -> value + string.

Definition parse (s : string) : completion value :=
  match JSON_parse s with
  | inl v => Return v
  | inr message => Throw (VError "SyntaxError" message)
  end.

(** [typeof args === 'string' ? JSON.parse(args) : args] *)
Definition parseArgs (args : value) : completion value :=
  match args with
  | VString s => parse s
  | _ => Return args
  end.

Definition handleToolCall (this : MCPClient) (call : toolCall) : completion value :=
  match map_get (name call) (tools this) with
  | None =>
      let error := "Tool not found: " +:+ name call in
      Return (error_result (id call) (name call) (VString error))
  | Some tool =>
      try_catch
        (parsedArgs <- parseArgs (arguments call) ;;
         result <- handler tool parsedArgs ;;
         Return (success_result (id call) (name call) result))
        (fun error =>
           message <- get_prop error "message" ;;
           Return (error_result (id call) (name call)
                     (logical_or message (VString (to_String error)))))
  end.

(** The message [{type: 'tool_results', results}]. *)
Definition tool_results (results : list value) : value :=
  VObject [("type", VString "tool_results"); ("results", VArray results)].

(** The ['message'] listener, as the list of messages it hands to
    [adapter.sendMessage]; a rejection of the batch or of the send is
    caught and logged. *)
Definition onMessage (this : MCPClient) (event : messageEvent) : list value :=
  match content event with
  | Some c =>
      match toolCalls c with
      | Some calls =>
          match Promise_all (map (handleToolCall this) calls) with
          | Return results => [tool_results results]
          | Throw _ => []
          end
      | None => []
      end
  | None => []
  end.

(** A call is not served when no handler has its name, when its string
    arguments do not decode, or when its handler throws. *)
Definition fails (this : MCPClient) (call : toolCall) : bool :=
  match map_get (name call) (tools this) with
  | None => true
  | Some tool =>
      match parseArgs (arguments call) with
      | Throw _ => true
      | Return parsedArgs =>
          match handler tool parsedArgs with
          | Throw _ => true
          | Return _ => false
          end
      end
  end.

(** The handler of the call, if any, throws [undefined] or [null]. *)
Definition handler_throws_nullish (this : MCPClient) (call : toolCall) : bool :=
  match map_get (name call) (tools this) with
  | None => false
  | Some tool =>
      match parseArgs (arguments call) with
      | Throw _ => false
      | Return parsedArgs => throws_nullish (handler tool parsedArgs)
      end
  end.

Definition batch (calls : list toolCall) : messageEvent :=
  {| content := Some {| toolCalls := Some calls |} |}.

End Runtime.

(** The definition sent to the personalization backend. *)
Definition toolDefinition (name : string) (description schema : value) : value :=
  VObject [("name", VString name); ("description", description);
           ("schema", schema)].

(** [registerTool(name, description, handler, schema)]: the entry is
    stored first; [adapter_registerTool] is [this.adapter.registerTool],
    whose rejection is logged and rethrown. *)
Definition registerTool (adapter_registerTool : value -> completion value)
  (name : string) (description : value) (handler : value -> completion value)
  (schema : value) (this : MCPClient) : completion value * MCPClient :=
  (try_catch (adapter_registerTool (toolDefinition name description schema))
             (fun error => Throw error),
   {| tools := map_set name
                 (Build_registeredTool description handler schema)
                 (tools this) |}).

(** [executeTool(name, args)]: the handler is run on the arguments as they
    are, its outcome is not wrapped. *)
Definition executeTool (name : string) (args : value) (this : MCPClient)
  : completion value :=
  match map_get name (tools this) with
  | None => Throw (new_Error ("Tool not found: " +:+ name))
  | Some tool => handler tool args
  end.

Definition getRegisteredTools (this : MCPClient) : list value :=
  map (fun entry => toolDefinition entry.1 (description entry.2) (schema entry.2))
      (tools this).

End MCP.

(* ===================================================================== *)
(** ** SecondMeMemory.retrieveMemories *)
(* ===================================================================== *)

Module Memory.

(** The object literal built from [options]: four defaulted fields, then
    [...options]. *)
Definition retrievalOptions (options : list (string * value)) : list (string * value) :=
  obj_spread options
    [("limit", logical_or (obj_get "limit" options) (VNumber 10));
     ("offset", logical_or (obj_get "offset" options) (VNumber 0));
     ("sortBy", logical_or (obj_get "sortBy" options) (VString "timestamp"));
     ("sortDirection", logical_or (obj_get "sortDirection" options) (VString "desc"))].

Definition retrieve_message (query : value) (options : list (string * value)) : value :=
  VObject [("type", VString "memory"); ("action", VString "retrieve");
           ("query", query); ("options", VObject (retrievalOptions options))].

(** [options] is [None] when the caller leaves the parameter out. *)
Definition retrieveMemories (sendMessage : value -> completion value)
  (query : value) (options : option (list (string * value))) : completion value :=
  let options := default [] options in
  try_catch (sendMessage (retrieve_message query options))
            (fun error => Throw error).

(** The defaults as the specification lists them. *)
Definition default_options : list (string * value) :=
  [("limit", VNumber 10); ("offset", VNumber 0);
   ("sortBy", VString "timestamp"); ("sortDirection", VString "desc")].

(** The specification's reading: defaults merged under the overrides. *)
Definition merged_under_overrides (overrides : list (string * value))
  : list (string * value) :=
  obj_spread overrides default_options.

(** [getUserPreferences(keys)]: a single key is wrapped in an array, and
    the options are left out. *)
Definition getUserPreferences (sendMessage : value -> completion value)
  (keys : value) : completion value :=
  let query :=
    VObject [("memoryType", VString "preference");
             ("keys", match keys with
                      | VArray _ => keys
                      | _ => VArray [keys]
                      end)] in
  retrieveMemories sendMessage query None.

End Memory.

(* ===================================================================== *)
(** ** js/integrations/tool-manager.js: tools of several apps *)
(* ===================================================================== *)

Module ConnectorApps.

(** [getToolsForApps(appNames)], by what it returns: [getTools appName] is
    the settled promise of [this.getTools(appName)].  The calls are started
    together and share the cache; that interleaving is not modelled here,
    only the way their outcomes are combined.  The initialization that
    comes first cannot throw, and the [catch] block rethrows. *)
Definition getToolsForApps (isConnected : string -> bool)
  (getTools : string -> completion value) (appNames : list string)
  : completion value :=
  let toolPromises :=
    map (fun appName =>
           if isConnected appName then getTools appName
           else Return (VArray [])) appNames in
  try_catch
    (toolArrays <- MCP.Promise_all toolPromises ;;
     Return (VArray (flat toolArrays)))
    (fun error => Throw error).

(** The combination of the outcomes: [Promise.all] followed by [flat]. *)
Definition combined (ps : list (completion value)) : completion value :=
  toolArrays <- MCP.Promise_all ps ;; Return (VArray (flat toolArrays)).

End ConnectorApps.

(* ===================================================================== *)
(** ** js/integrations/second-me-adapter.js *)
(* ===================================================================== *)

Module Adapter.

(** What [fetch] resolves to, by the members the adapter reads. *)
Record response : Type := {
  ok : bool;
  status : Z;
  statusText : string;
  json : completion value
}.

(** A call of [fetch]; [body] is the object handed to [JSON.stringify]. *)
Record request : Type := {
  url : string;
  method : string;
  headers : list (string * string);
  body : value
}.

(** What a method leaves behind, in order: the requests it makes and the
    events it emits.  What the listeners of an event do in turn is not
    part of the method. *)
Inductive effect : Type :=
| Fetch (r : request)
| Emit (event : string) (data : value).

(** Callbacks are compared by identity, here a number.  [eventListeners]
    is a plain object used as a dictionary from event names to arrays: the
    map holds its own properties; a name it does not hold is read from
    [Object_prototype]. *)
Record SecondMeAdapter : Type := {
  apiEndpoint : string;
  autoAuthenticate : bool;
  contextId : value;
  connected : bool;
  eventListeners : gmap string (list nat)
}.

(** [new SecondMeAdapter(config)]; a field of [config] is [None] when it is
    left out. *)
Definition constructor (config_apiEndpoint : option string)
  (config_autoAuthenticate : option bool) : SecondMeAdapter :=
  {| apiEndpoint :=
       match config_apiEndpoint with
       | Some e => if String.eqb e EmptyString then "http://localhost:5000/api" else e
       | None => "http://localhost:5000/api"
       end;
     autoAuthenticate := default false config_autoAuthenticate;
     contextId := VNull;
     connected := false;
     eventListeners := ∅ |}.

Definition request_headers (this : SecondMeAdapter) : list (string * string) :=
  ("Content-Type", "application/json")
  :: (if autoAuthenticate this then [("X-App-Auth", "true")] else []).

Definition init_request (this : SecondMeAdapter) : request :=
  {| url := apiEndpoint this +:+ "/init";
     method := "POST";
     headers := request_headers this;
     body := VObject [("clientId", VString "veo-platform");
                      ("capabilities",
                       VArray [VString "video-generation";
                               VString "social-sharing"; VString "chat"])] |}.

Definition status_line (r : response) : string :=
  string_of_Z (status r) +:+ " " +:+ statusText r.

Definition initialize (fetch : request -> completion response)
  (this : SecondMeAdapter) : completion value * SecondMeAdapter * list effect :=
  match (response <- fetch (init_request this) ;;
         if negb (ok response) then
           Throw (new_Error ("Failed to initialize: " +:+ status_line response))
         else
           data <- json response ;;
           id <- get_prop data "contextId" ;;
           Return (data, id)) with
  | Return (data, id) =>
      (Return data,
       {| apiEndpoint := apiEndpoint this;
          autoAuthenticate := autoAuthenticate this;
          contextId := id; connected := true;
          eventListeners := eventListeners this |},
       [Fetch (init_request this);
        Emit "connected" (VObject [("contextId", id)])])
  | Throw error =>
      (Throw error, this,
       [Fetch (init_request this);
        Emit "error" (VObject [("error", error);
                               ("message", VString "Failed to initialize connection")])])
  end.

(** The parameter default of [sendMessage(message, metadata = {})]: an
    argument that is left out or is [undefined] becomes a new empty
    object. *)
Definition metadata_or_default (metadata : value) : value :=
  match metadata with
  | VUndefined => VObject []
  | _ => metadata
  end.

(** [typeof message === 'string' ? {text: message, type: 'text', metadata}
    : {...message, metadata}], from the arguments as they are passed. *)
Definition payload (message metadata : value) : list (string * value) :=
  match message with
  | VString _ =>
      [("text", message); ("type", VString "text");
       ("metadata", metadata_or_default metadata)]
  | _ =>
      obj_set "metadata" (metadata_or_default metadata)
        (obj_spread (own_enumerable message) [])
  end.

Definition message_request (this : SecondMeAdapter) (message metadata : value)
  : request :=
  {| url := apiEndpoint this +:+ "/message";
     method := "POST";
     headers := request_headers this;
     body := VObject (obj_spread (payload message metadata)
                        [("contextId", contextId this)]) |}.

Definition sendMessage (fetch : request -> completion response)
  (message metadata : value) (this : SecondMeAdapter)
  : completion value * SecondMeAdapter * list effect :=
  let '(init, this1, effects1) :=
    if negb (truthy (contextId this)) then initialize fetch this
    else (Return VUndefined, this, []) in
  match init with
  | Throw error => (Throw error, this1, effects1)
  | Return _ =>
      let req := message_request this1 message metadata in
      match (response <- fetch req ;;
             if negb (ok response) then
               Throw (new_Error ("Failed to send message: " +:+ status_line response))
             else json response) with
      | Return data =>
          (Return data, this1,
           effects1 ++
           [Fetch req;
            Emit "message" (VObject [("direction", VString "response");
                                     ("content", data)])])
      | Throw error =>
          (Throw error, this1,
           effects1 ++
           [Fetch req;
            Emit "error" (VObject [("error", error);
                                   ("message", VString "Failed to send message")])])
      end
  end.

Definition with_listeners (this : SecondMeAdapter) (l : gmap string (list nat))
  : SecondMeAdapter :=
  {| apiEndpoint := apiEndpoint this; autoAuthenticate := autoAuthenticate this;
     contextId := contextId this; connected := connected this;
     eventListeners := l |}.

(** The TypeError raised by calling a member that the value read from
    the dictionary does not have (V8's wording, which quotes the callee as
    it is written). *)
Definition not_a_function (member : string) : value :=
  VError "TypeError"
    ("this.eventListeners[event]." +:+ member +:+ " is not a function").

(** [this.eventListeners[event]] is an own array, or else an inherited
    member, which is truthy and has no [push]. *)
Definition addEventListener (event : string) (callback : nat)
  (this : SecondMeAdapter) : completion unit * SecondMeAdapter :=
  match eventListeners this !! event with
  | Some callbacks =>
      (Return tt,
       with_listeners this (<[event := callbacks ++ [callback]]> (eventListeners this)))
  | None =>
      match Object_prototype event with
      | Some _ => (Throw (not_a_function "push"), this)
      | None =>
          (Return tt,
           with_listeners this (<[event := [callback]]> (eventListeners this)))
      end
  end.

Definition removeEventListener (event : string) (callback : nat)
  (this : SecondMeAdapter) : completion unit * SecondMeAdapter :=
  match eventListeners this !! event with
  | Some callbacks =>
      (Return tt,
       with_listeners this
         (<[event := List.filter (fun cb => negb (Nat.eqb cb callback)) callbacks]>
            (eventListeners this)))
  | None =>
      match Object_prototype event with
      | Some _ => (Throw (not_a_function "filter"), this)
      | None => (Return tt, this)
      end
  end.

(** [emitEvent(event, data)], by the callbacks it invokes, in order; each
    call sits in its own [try]/[catch]. *)
Definition emitEvent (event : string) (this : SecondMeAdapter)
  : completion (list nat) :=
  match eventListeners this !! event with
  | Some callbacks => Return callbacks
  | None =>
      match Object_prototype event with
      | Some _ => Throw (not_a_function "forEach")
      | None => Return []
      end
  end.

End Adapter.

(* ===================================================================== *)
(** ** veo2-integration.js: the tools registered with the MCP client *)
(* ===================================================================== *)

Module Veo2.

Definition property (type description : string) : value :=
  VObject [("type", VString type); ("description", VString description)].

(** A text between double quotes. *)
Definition quoted (s : string) : string :=
  String "034" (s +:+ String "034" EmptyString).

Definition generate_video_schema : value :=
  VObject
    [("type", VString "object");
     ("properties",
      VObject
        [("prompt",
          property "string" "Text description of the desired video content");
         ("duration",
          property "number" "Video duration in seconds (default: 3)");
         ("aspectRatio",
          property "string"
            ("Video aspect ratio like " +:+ quoted "16:9" +:+ ", "
             +:+ quoted "9:16" +:+ ", " +:+ quoted "1:1"
             +:+ " (default: " +:+ quoted "16:9" +:+ ")"));
         ("imageBase64",
          property "string"
            "Optional base64-encoded image to condition the video generation");
         ("enhancePrompt",
          property "boolean"
            "Whether to enhance the prompt with AI (default: false)")]);
     ("required", VArray [VString "prompt"])].

Definition apply_video_style_schema : value :=
  VObject
    [("type", VString "object");
     ("properties",
      VObject
        [("videoUrl", property "string" "URL of the source video to apply style to");
         ("stylePrompt", property "string" "Text description of the style to apply")]);
     ("required", VArray [VString "videoUrl"; VString "stylePrompt"])].

(** [prop] of a value that has passed the destructuring check. *)
Definition field (v : value) (k : string) : value :=
  match get_prop v k with
  | Return x => x
  | Throw _ => VUndefined
  end.

Definition videoOptions (args : value) : value :=
  VObject [("prompt", field args "prompt");
           ("duration", logical_or (field args "duration") (VNumber 3));
           ("aspectRatio", logical_or (field args "aspectRatio") (VString "16:9"));
           ("imageBase64", field args "imageBase64");
           ("enhancePrompt", coalesce (field args "enhancePrompt") (VBool false))].

(** The handler of [generate_video]; [generateVideo] is
    [veo2Service.generateVideo]. *)
Definition generate_video (generateVideo : value -> completion value)
  (args : value) : completion value :=
  _ <- destructure args "prompt" "args" ;;
  if negb (truthy (field args "prompt")) then
    Throw (new_Error "A prompt is required to generate a video")
  else
    try_catch
      (result <- generateVideo (videoOptions args) ;;
       video <- get_prop result "video" ;;
       url <- get_prop video "url" ;;
       Return (VObject [("videoUrl", url);
                        ("prompt", field video "prompt");
                        ("aspectRatio", field video "aspectRatio");
                        ("duration", field video "duration")]))
      (fun error => Throw error).

(** The handler of [apply_video_style]. *)
Definition apply_video_style (args : value) : completion value :=
  _ <- destructure args "videoUrl" "args" ;;
  Throw (new_Error "Video style transfer is not yet implemented").

Definition registerVeo2Tools (adapter_registerTool : value -> completion value)
  (generateVideo : value -> completion value) (mcpClient : MCP.MCPClient)
  : completion unit * MCP.MCPClient :=
  let (r1, client1) :=
    MCP.registerTool adapter_registerTool "generate_video"
      (VString "Generate a video using Veo 2 API")
      (generate_video generateVideo) generate_video_schema mcpClient in
  match r1 with
  | Throw error => (Throw error, client1)
  | Return _ =>
      let (r2, client2) :=
        MCP.registerTool adapter_registerTool "apply_video_style"
          (VString "Apply a style to an existing video using Veo 2")
          apply_video_style apply_video_style_schema client1 in
      match r2 with
      | Throw error => (Throw error, client2)
      | Return _ => (Return tt, client2)
      end
  end.

(** The options [veo2Service.generateVideo] can be called with. *)
Definition well_formed_options (o : value) : Prop :=
  exists prompt duration aspectRatio imageBase64 enhancePrompt,
    o = VObject [("prompt", prompt); ("duration", duration);
                 ("aspectRatio", aspectRatio); ("imageBase64", imageBase64);
                 ("enhancePrompt", enhancePrompt)]
    /\ truthy prompt = true /\ truthy duration = true
    /\ truthy aspectRatio = true /\ nullish enhancePrompt = false.

End Veo2.

(* ===================================================================== *)
(** ** js/video/veo2-service.js: reading the video out of the response *)
(* ===================================================================== *)

Module Veo2Service.

(** [v.length]; only its comparison with zero is used. *)
Definition length_of (v : value) : completion value :=
  match v with
  | VUndefined | VNull => Throw (type_error_read v "length")
  | VArray items => Return (VNumber (Z.of_nat (length items)))
  | VString s => Return (VNumber (Z.of_nat (String.length s)))
  | VObject o => Return (obj_get "length" o)
  | VFunction _ l => Return (VNumber l)
  | _ => Return VUndefined
  end.

(** [v[0]] *)
Definition first_of (v : value) : completion value :=
  match v with
  | VUndefined | VNull => Throw (type_error_read v "0")
  | VArray items => Return (default VUndefined (head items))
  | VString (String c _) => Return (VString (String c EmptyString))
  | VObject o => Return (obj_get "0" o)
  | _ => Return VUndefined
  end.

(** [v === 0] *)
Definition is_zero (v : value) : bool :=
  match v with
  | VNumber 0 => true
  | _ => false
  end.

(** [parts.find(part => part.video)] on an array. *)
Fixpoint find_video (parts : list value) : completion value :=
  match parts with
  | [] => Return VUndefined
  | part :: rest =>
      video <- get_prop part "video" ;;
      if truthy video then Return part else find_video rest
  end.

(** [content.parts.find(...)]: only arrays have the method. *)
Definition parts_find (parts : value) : completion value :=
  match parts with
  | VArray items => find_video items
  | VUndefined | VNull => Throw (type_error_read parts "find")
  | _ => Throw (VError "TypeError" "content.parts.find is not a function")
  end.

Definition processVertexResponse (vertexResponse : value) : completion value :=
  try_catch
    (c <- get_prop vertexResponse "candidates" ;;
     let candidates := logical_or c (VArray []) in
     n <- length_of candidates ;;
     if is_zero n then Throw (new_Error "No candidates returned in response")
     else
       first <- first_of candidates ;;
       content <- get_prop first "content" ;;
       if negb (truthy content) then
         Throw (new_Error "No parts found in candidate content")
       else
         parts <- get_prop content "parts" ;;
         if negb (truthy parts) then
           Throw (new_Error "No parts found in candidate content")
         else
           m <- length_of parts ;;
           if is_zero m then
             Throw (new_Error "No parts found in candidate content")
           else
             videoPart <- parts_find parts ;;
             if negb (truthy videoPart) then
               Throw (new_Error "No video URL found in response")
             else
               video <- get_prop videoPart "video" ;;
               if negb (truthy video) then
                 Throw (new_Error "No video URL found in response")
               else
                 uri <- get_prop video "uri" ;;
                 if negb (truthy uri) then
                   Throw (new_Error "No video URL found in response")
                 else Return (VObject [("videoUrl", uri)]))
    (fun error =>
       message <- get_prop error "message" ;;
       Throw (new_Error ("Failed to extract video from response: "
                         +:+ to_String message))).

(** A completion that throws nothing but error objects. *)
Definition throws_error_objects (c : completion value) : Prop :=
  match c with
  | Return _ => True
  | Throw e => exists n m, e = VError n m
  end.

End Veo2Service.

(* ===================================================================== *)
(** ** Sample inputs *)
(* ===================================================================== *)

Module Fixtures.

Definition no_parameters : value := VObject [].

Definition search_declaration : Broker.declaration :=
  {| Broker.decl_name := "googleSearch";
     Broker.decl_description := "Search the web";
     Broker.decl_parameters := no_parameters |}.

Definition googleSearch : Broker.tool :=
  {| Broker.getDeclaration := Some search_declaration;
     Broker.execute := fun _ => Return (VString "results") |}.

(** A second tool that declares the same name as [googleSearch]. *)
Definition imageSearch : Broker.tool :=
  {| Broker.getDeclaration := Some search_declaration;
     Broker.execute := fun _ => Return (VString "images") |}.

Definition offline : Broker.composioAPI :=
  {| Broker.isConnected := fun _ => false;
     Broker.getTools := fun _ => Throw (new_Error "offline");
     Broker.executeTool := fun _ _ => Throw (new_Error "connector unreachable") |}.

(** A backend answer whose [output] is the number zero. *)
Definition zero_result : value :=
  VObject [("output", VNumber 0); ("status", VString "sent")].

Definition gmail_only : Broker.composioAPI :=
  {| Broker.isConnected := fun app => String.eqb app "gmail";
     Broker.getTools := fun _ => Return [];
     Broker.executeTool := fun _ _ => Return zero_result |}.

Definition one_tool : Broker.ToolManager :=
  (Broker.registerTool "googleSearch" googleSearch Broker.constructor).1.

Definition two_registrations : list (string * Broker.tool) :=
  [("googleSearch", googleSearch); ("imageSearch", imageSearch)].

Definition two_tools : Broker.ToolManager :=
  Broker.register_all two_registrations Broker.constructor.

(** An integration connected to gmail only, whose tool listing answers
    with the app name and the number of the call. *)
Definition gmail_integration : ConnectorTools.composioIntegration :=
  {| ConnectorTools.ci_initialized := false;
     ConnectorTools.ci_initialize := Return tt;
     ConnectorTools.isConnected := fun app => String.eqb app "gmail";
     ConnectorTools.backend :=
       fun n app _ _ => Return (VArray [VString app; VNumber (Z.of_nat n)]);
     ConnectorTools.calls := [] |}.

Definition fresh : ConnectorTools.state :=
  (ConnectorTools.constructor, gmail_integration).

(** A manager that still holds a cached entry for slack, which is no
    longer connected. *)
Definition stale : ConnectorTools.state :=
  ({| ConnectorTools.initialized := true;
      ConnectorTools.toolCache :=
        {[ ConnectorTools.cacheKey "slack" [] [] := VArray [VString "slack"] ]} |},
   gmail_integration).

(** A stand-in for [JSON.parse] that decodes two texts and rejects the
    rest. *)
Definition sample_JSON_parse (s : string) : value + string :=
  if String.eqb s "{}" then inl (VObject [])
  else if String.eqb s "null" then inl VNull
  else inr "Unexpected token in JSON".

Definition echo : MCP.registeredTool :=
  {| MCP.description := VString "Return the arguments";
     MCP.handler := fun a => Return a;
     MCP.schema := VObject [] |}.

Definition broken : MCP.registeredTool :=
  {| MCP.description := VString "Always fails";
     MCP.handler := fun _ => Throw (new_Error "boom");
     MCP.schema := VObject [] |}.

Definition client : MCP.MCPClient :=
  {| MCP.tools := [("echo", echo); ("broken", broken)] |}.

Definition echo_call : MCP.toolCall :=
  {| MCP.name := "echo"; MCP.id := VString "t1"; MCP.arguments := VString "{}" |}.

Definition broken_call : MCP.toolCall :=
  {| MCP.name := "broken"; MCP.id := VString "t2"; MCP.arguments := VObject [] |}.

Definition garbled_call : MCP.toolCall :=
  {| MCP.name := "echo"; MCP.id := VString "t3"; MCP.arguments := VString "{oops" |}.

Definition missing_call : MCP.toolCall :=
  {| MCP.name := "missing"; MCP.id := VString "t4"; MCP.arguments := VObject [] |}.

Definition search_call : Broker.functionCall :=
  {| Broker.name := "googleSearch"; Broker.args := VObject [];
     Broker.id := VString "call-1" |}.

Definition ab_call : Broker.functionCall :=
  {| Broker.name := "ab_doSomething"; Broker.args := VObject [];
     Broker.id := VString "call-2" |}.

Definition gmail_call : Broker.functionCall :=
  {| Broker.name := "gmail_send"; Broker.args := VObject [];
     Broker.id := VString "call-3" |}.

(** A local tool registered under a connector-style name. *)
Definition local_gmail_send : Broker.tool :=
  {| Broker.getDeclaration := None;
     Broker.execute := fun _ => Return (VString "sent locally") |}.

Definition shadowed : Broker.ToolManager :=
  (Broker.registerTool "gmail_send" local_gmail_send Broker.constructor).1.

Definition gmail_tool : Broker.composioTool :=
  {| Broker.function :=
       {| Broker.decl_name := "gmail_send";
          Broker.decl_description := "Send an email";
          Broker.decl_parameters := no_parameters |} |}.

(** A connector API whose tool listing answers and whose executor
    resolves to [undefined]. *)
Definition gmail_listing : Broker.composioAPI :=
  {| Broker.isConnected := fun app => String.eqb app "gmail";
     Broker.getTools := fun _ => Return [gmail_tool];
     Broker.executeTool := fun _ _ => Return VUndefined |}.

(** A local tool and a connector executor that throw [null]. *)
Definition throws_null : Broker.tool :=
  {| Broker.getDeclaration := None;
     Broker.execute := fun _ => Throw VNull |}.

Definition null_thrower : Broker.ToolManager :=
  (Broker.registerTool "googleSearch" throws_null Broker.constructor).1.

(** The same integration when its own initialization fails. *)
Definition failing_init : ConnectorTools.composioIntegration :=
  {| ConnectorTools.ci_initialized := false;
     ConnectorTools.ci_initialize := Throw (new_Error "SDK not loaded");
     ConnectorTools.isConnected := fun app => String.eqb app "gmail";
     ConnectorTools.backend :=
       fun n app _ _ => Return (VArray [VString app; VNumber (Z.of_nat n)]);
     ConnectorTools.calls := [] |}.

(** An integration whose listing fails on its first call and answers
    afterwards. *)
Definition flaky : ConnectorTools.composioIntegration :=
  {| ConnectorTools.ci_initialized := true;
     ConnectorTools.ci_initialize := Return tt;
     ConnectorTools.isConnected := fun app => String.eqb app "gmail";
     ConnectorTools.backend :=
       fun n app _ _ =>
         match n with
         | O => Throw (new_Error "502 Bad Gateway")
         | S _ => Return (VArray [VString app])
         end;
     ConnectorTools.calls := [] |}.

(** The outcomes of [getTools] for three apps. *)
Definition tools_of (app : string) : list value :=
  [VString (app +:+ "_list"); VString (app +:+ "_send")].

Definition fetch_tools (app : string) : completion value :=
  Return (VArray (tools_of app)).

Definition fetch_or_fail (app : string) : completion value :=
  if String.eqb app "slack" then Throw (new_Error "Not connected to slack")
  else Return (VArray (tools_of app)).

Definition slack_off (app : string) : bool := negb (String.eqb app "slack").

(** A handler that throws [null]. *)
Definition nuller : MCP.registeredTool :=
  {| MCP.description := VString "Throws null";
     MCP.handler := fun _ => Throw VNull;
     MCP.schema := VObject [] |}.

Definition client_with_nuller : MCP.MCPClient :=
  {| MCP.tools := [("echo", echo); ("nuller", nuller)] |}.

Definition nuller_call : MCP.toolCall :=
  {| MCP.name := "nuller"; MCP.id := VString "t5"; MCP.arguments := VObject [] |}.

Definition echo_object_call : MCP.toolCall :=
  {| MCP.name := "echo"; MCP.id := VString "t1"; MCP.arguments := VObject [] |}.

(** An adapter registration that is rejected. *)
Definition rejecting (definition : value) : completion value :=
  Throw (new_Error "Failed to send message: 503 Service Unavailable").

Definition accepting (definition : value) : completion value :=
  Return (VObject [("registered", VBool true)]).

Definition ok_response (data : value) : Adapter.response :=
  {| Adapter.ok := true; Adapter.status := 200; Adapter.statusText := "OK";
     Adapter.json := Return data |}.

(** A backend that opens the context [ctx-1] and answers every message
    with a text. *)
Definition backend_up (r : Adapter.request) : completion Adapter.response :=
  if String.eqb (Adapter.url r) "http://localhost:5000/api/init" then
    Return (ok_response (VObject [("contextId", VString "ctx-1")]))
  else Return (ok_response (VObject [("text", VString "hello")])).

(** A backend that cannot be reached. *)
Definition backend_down (r : Adapter.request) : completion Adapter.response :=
  Throw (VError "TypeError" "Failed to fetch").

Definition new_adapter : Adapter.SecondMeAdapter :=
  Adapter.constructor None (Some true).

Definition open_adapter : Adapter.SecondMeAdapter :=
  {| Adapter.apiEndpoint := "http://localhost:5000/api";
     Adapter.autoAuthenticate := true;
     Adapter.contextId := VString "ctx-1";
     Adapter.connected := true;
     Adapter.eventListeners := {[ "message" := [1%nat; 2%nat; 1%nat] ]} |}.

Definition memory_message : value :=
  VObject [("type", VString "memory"); ("action", VString "store");
           ("metadata", VString "mine")].

(** A video service that answers with a fixed video. *)
Definition video_service (options : value) : completion value :=
  Return (VObject
            [("video",
              VObject [("url", VString "https://videos.example/1.mp4");
                       ("prompt", Veo2.field options "prompt");
                       ("aspectRatio", Veo2.field options "aspectRatio");
                       ("duration", Veo2.field options "duration")])]).

(** A video service that fails on everything. *)
Definition no_service (options : value) : completion value :=
  Throw (new_Error "Veo 2 access token not configured. Please add your access token in settings.").


Definition empty_client : MCP.MCPClient := {| MCP.tools := [] |}.

(** A Vertex AI answer whose first candidate holds a text part and a
    video part; the second candidate is never looked at. *)
Definition vertex_answer : value :=
  VObject
    [("candidates",
      VArray
        [VObject
           [("content",
             VObject
               [("parts",
                 VArray
                   [VObject [("text", VString "here is your video")];
                    VObject [("video",
                              VObject [("uri", VString "gs://bucket/cat.mp4")])]])])];
         VNull])].

(** An integration connected to an app named [__proto]. *)
Definition proto_integration : ConnectorTools.composioIntegration :=
  {| ConnectorTools.ci_initialized := true;
     ConnectorTools.ci_initialize := Return tt;
     ConnectorTools.isConnected := fun app => String.eqb app "__proto";
     ConnectorTools.backend :=
       fun n app _ _ => Return (VArray [VString app; VNumber (Z.of_nat n)]);
     ConnectorTools.calls := [] |}.

End Fixtures.

(* ===================================================================== *)
(** ** The app-prefix pattern *)
(* ===================================================================== *)

Section Prefix.

Lemma span_lower_sound (s p rest : string) :
  span_lower s = (p, rest) -> s = p +:+ rest /\ all_lower p = true.
Proof.
  revert p rest. induction s as [|c s IH]; intros p rest; simpl.
  - intros [= <- <-]. done.
  - destruct (is_lower c) eqn:Hc.
    + destruct (span_lower s) as [p' rest'] eqn:Hs.
      intros [= <- <-]. destruct (IH _ _ eq_refl) as [-> Hp].
      simpl. by rewrite Hc, Hp.
    + intros [= <- <-]. done.
Qed.

Lemma span_lower_run (p rest : string) :
  all_lower p = true ->
  match rest with String c _ => is_lower c = false | EmptyString => True end ->
  span_lower (p +:+ rest) = (p, rest).
Proof.
  intros Hp Hrest. induction p as [|c p IH]; simpl in *.
  - destruct rest as [|c r]; [done|]. simpl. by rewrite Hrest.
  - apply andb_prop in Hp as [Hc Hp]. by rewrite Hc, (IH Hp).
Qed.

(** The matcher accepts exactly the names [p_rest] with [p] a non-empty
    word over [a-z], and captures [p]. *)
Lemma match_app_prefix_intro (p rest : string) :
  p <> EmptyString -> all_lower p = true ->
  match_app_prefix (p +:+ "_" +:+ rest) = Some p.
Proof.
  intros Hne Hp. unfold match_app_prefix.
  rewrite (span_lower_run p ("_" +:+ rest) Hp); [|done].
  destruct p; [done|]. done.
Qed.

Lemma match_app_prefix_elim (name p : string) :
  match_app_prefix name = Some p ->
  exists rest, name = p +:+ "_" +:+ rest /\ p <> EmptyString /\ all_lower p = true.
Proof.
  unfold match_app_prefix. destruct (span_lower name) as [q r] eqn:Hs.
  apply span_lower_sound in Hs as [-> Hq].
  destruct q as [|c q]; [done|]. destruct r as [|u r]; [done|].
  destruct (Ascii.eqb_spec u "_") as [->|Hu].
  - intros [= <-]. exists r. done.
  - destruct u as [[] [] [] [] [] [] [] []]; try done.
Qed.

Example match_app_prefix_connector_name :
  match_app_prefix "gmail_send_email" = Some "gmail".
Proof. reflexivity. Qed.

Example match_app_prefix_local_name : match_app_prefix "googleSearch" = None.
Proof. reflexivity. Qed.

Example match_app_prefix_rejects :
  match_app_prefix "_send" = None /\ match_app_prefix "Gmail_send" = None
  /\ match_app_prefix "gmail2_send" = None /\ match_app_prefix "gmail" = None.
Proof. repeat split. Qed.

End Prefix.

(* ===================================================================== *)
(** ** The broker: routing and result envelopes *)
(* ===================================================================== *)

Section BrokerRouting.

Import Broker.

Variables (api : composioAPI) (this : ToolManager) (call : functionCall).

(** What step 3 of the resolution does with the call. *)
Lemma handleToolCall_local :
  (forall app, match_app_prefix (name call) = Some app -> isConnected api app = false) ->
  handleToolCall api this call =
  match map_get (name call) (tools this) with
  | None => Return (envelope VNull (id call)
                      (VString ("Tool not found: " +:+ name call)))
  | Some tool =>
      try_catch (result <- execute tool (args call) ;;
                 Return (envelope result (id call) VNull))
                (catch_envelope (id call))
  end.
Proof.
  intros Hoff. unfold handleToolCall.
  destruct (match_app_prefix (name call)) as [app|] eqn:Hm; [|done].
  by rewrite (Hoff app eq_refl).
Qed.

Lemma handleToolCall_connector (app : string) :
  match_app_prefix (name call) = Some app -> isConnected api app = true ->
  handleToolCall api this call =
  try_catch (result <- executeTool api (name call) (args call) ;;
             output <- get_prop result "output" ;;
             Return (envelope (logical_or output result) (id call) VNull))
            (catch_envelope (id call)).
Proof. intros Hm Hc. unfold handleToolCall. by rewrite Hm, Hc. Qed.

Lemma get_prop_defined (v : value) (k : string) :
  nullish v = false -> exists x, get_prop v k = Return x.
Proof. destruct v; simpl; try done; eauto. Qed.

Lemma get_prop_nullish (v : value) (k : string) :
  nullish v = true -> get_prop v k = Throw (type_error_read v k).
Proof. by destruct v. Qed.

Lemma catch_envelope_defined (i e : value) :
  nullish e = false ->
  exists m, get_prop e "message" = Return m /\
            catch_envelope i e = Return (envelope VNull i m).
Proof.
  intros He. destruct (get_prop_defined e "message" He) as [m Hm].
  exists m. unfold catch_envelope. by rewrite Hm.
Qed.

End BrokerRouting.

(** C1: a call name of the form [p_rest], [p] a non-empty word over a-z,
    whose app [p] is not connected is not sent to the connector executor
    (the result is the same whatever the connector API would do) but is
    looked up among the local tools; when no local tool has that name the
    result is [{output: null, id, error: "Tool not found: <name>"}]. *)
Theorem C1_unconnected_prefix_uses_local_lookup
  (api : Broker.composioAPI) (this : Broker.ToolManager)
  (call : Broker.functionCall) (p rest : string) :
  Broker.name call = p +:+ "_" +:+ rest ->
  p <> EmptyString -> all_lower p = true ->
  Broker.isConnected api p = false ->
  (forall api', Broker.isConnected api' p = false ->
     Broker.handleToolCall api' this call = Broker.handleToolCall api this call)
  /\ (map_get (Broker.name call) (Broker.tools this) = None ->
      Broker.handleToolCall api this call =
      Return (VObject [("output", VNull); ("id", Broker.id call);
                       ("error", VString ("Tool not found: " +:+ Broker.name call))]))
  /\ (forall tool, map_get (Broker.name call) (Broker.tools this) = Some tool ->
      Broker.handleToolCall api this call =
      try_catch (result <- Broker.execute tool (Broker.args call) ;;
                 Return (Broker.envelope result (Broker.id call) VNull))
                (Broker.catch_envelope (Broker.id call))).
Proof.
  intros Hname Hne Hp Hoff.
  assert (Hm : match_app_prefix (Broker.name call) = Some p)
    by (rewrite Hname; by apply match_app_prefix_intro).
  assert (Hlocal : forall a, Broker.isConnected a p = false ->
            forall app, match_app_prefix (Broker.name call) = Some app ->
                        Broker.isConnected a app = false)
    by (intros a Ha app; rewrite Hm; by intros [= <-]).
  split; [|split].
  - intros api' Hoff'.
    by rewrite !handleToolCall_local by auto.
  - intros Hnone. rewrite handleToolCall_local by auto. by rewrite Hnone.
  - intros tool Hsome. rewrite handleToolCall_local by auto. by rewrite Hsome.
Qed.

Lemma C1_witness :
  Broker.handleToolCall Fixtures.offline Fixtures.one_tool Fixtures.ab_call =
  Return (VObject [("output", VNull); ("id", VString "call-2");
                   ("error", VString "Tool not found: ab_doSomething")]).
Proof.
  apply (C1_unconnected_prefix_uses_local_lookup
           Fixtures.offline Fixtures.one_tool Fixtures.ab_call "ab" "doSomething");
    [reflexivity | discriminate | reflexivity | reflexivity | reflexivity].
Defined.

(** C2 as stated fails: the broker's result carries no [name] and no
    [status] field. *)
Lemma C2_counterexample :
  ~ exists fields,
      Broker.handleToolCall Fixtures.offline Fixtures.one_tool Fixtures.search_call
      = Return (VObject fields)
      /\ obj_has "name" fields = true /\ obj_has "status" fields = true.
Proof. intros (fields & [= <-] & Hname & _). discriminate Hname. Qed.

(** C2, amended: when the executor that the call is routed to (the
    connector's for a connected app prefix, the local tool's otherwise)
    returns, or throws anything but [undefined] or [null],
    [handleToolCall] returns the three-field envelope [{output, id, error}]
    with the request's id, and the two other fields follow the outcome.
    Connector route: a result [r] other than undefined and null gives
    [output = r.output || r] and [error = null]; a result that is
    undefined or null gives [output = null] and the message of the
    TypeError that reading [r.output] raises; a thrown [e] gives
    [output = null] and [error = e.message].  Local route: no tool of that
    name gives [output = null] and ["Tool not found: <name>"]; a returned
    [r] gives [output = r] and [error = null]; a thrown [e] gives
    [output = null] and [error = e.message].  In every case [error] is
    null or [output] is null. *)
Theorem C2_envelope_follows_outcome
  (api : Broker.composioAPI) (this : Broker.ToolManager)
  (call : Broker.functionCall) :
  (forall app, match_app_prefix (Broker.name call) = Some app ->
     Broker.isConnected api app = true ->
     throws_nullish (Broker.executeTool api (Broker.name call) (Broker.args call))
       = false) ->
  ((forall app, match_app_prefix (Broker.name call) = Some app ->
      Broker.isConnected api app = false) ->
   forall tool, map_get (Broker.name call) (Broker.tools this) = Some tool ->
     throws_nullish (Broker.execute tool (Broker.args call)) = false) ->
  exists output error,
    Broker.handleToolCall api this call =
    Return (VObject [("output", output); ("id", Broker.id call); ("error", error)])
    /\ (error = VNull \/ output = VNull)
    /\ (forall app, match_app_prefix (Broker.name call) = Some app ->
        Broker.isConnected api app = true ->
        match Broker.executeTool api (Broker.name call) (Broker.args call) with
        | Return r =>
            if nullish r then
              output = VNull
              /\ get_prop (type_error_read r "output") "message" = Return error
            else
              exists o, get_prop r "output" = Return o
                        /\ output = logical_or o r /\ nullish output = false
                        /\ error = VNull
        | Throw e => output = VNull /\ get_prop e "message" = Return error
        end)
    /\ ((forall app, match_app_prefix (Broker.name call) = Some app ->
           Broker.isConnected api app = false) ->
        match map_get (Broker.name call) (Broker.tools this) with
        | None =>
            output = VNull
            /\ error = VString ("Tool not found: " +:+ Broker.name call)
        | Some tool =>
            match Broker.execute tool (Broker.args call) with
            | Return r => output = r /\ error = VNull
            | Throw e => output = VNull /\ get_prop e "message" = Return error
            end
        end).
Proof.
  intros Hconn Hlocal.
  destruct (match_app_prefix (Broker.name call)) as [app|] eqn:Hm.
  - destruct (Broker.isConnected api app) eqn:Hc.
    + rewrite (handleToolCall_connector api this call app Hm Hc).
      specialize (Hconn app eq_refl Hc).
      assert (Hoff : ~ forall app0, Some app = Some app0 ->
                                    Broker.isConnected api app0 = false).
      { intros H. specialize (H app eq_refl). congruence. }
      destruct (Broker.executeTool api (Broker.name call) (Broker.args call))
        as [r|e] eqn:He; simpl in Hconn |- *.
      * destruct (nullish r) eqn:Hr.
        -- rewrite (get_prop_nullish r "output" Hr). simpl.
           eexists _, _. split; [reflexivity|]. split; [by right|]. split.
           ++ by intros app0 [= <-] _.
           ++ intros H. by destruct Hoff.
        -- destruct (get_prop_defined r "output" Hr) as [o Ho]. rewrite Ho. simpl.
           eexists _, _. split; [reflexivity|]. split; [by left|]. split.
           ++ intros app0 [= <-] _. exists o.
              split; [done|]. split; [done|]. split; [|done].
              unfold logical_or. destruct (truthy o) eqn:Hto; [|done].
              by destruct o.
           ++ intros H. by destruct Hoff.
      * destruct (catch_envelope_defined (Broker.id call) e Hconn) as (m & Hmsg & ->).
        eexists _, _. split; [reflexivity|]. split; [by right|]. split.
        -- by intros app0 [= <-] _.
        -- intros H. by destruct Hoff.
    + assert (Hoff : forall app0, match_app_prefix (Broker.name call) = Some app0 ->
                                  Broker.isConnected api app0 = false).
      { intros app0. rewrite Hm. by intros [= <-]. }
      rewrite (handleToolCall_local api this call Hoff).
      assert (Hoff' : forall app0, Some app = Some app0 ->
                                   Broker.isConnected api app0 = false)
        by (by intros app0 [= <-]).
      specialize (Hlocal Hoff').
      destruct (map_get (Broker.name call) (Broker.tools this)) as [tool|] eqn:Ht.
      * specialize (Hlocal tool eq_refl).
        destruct (Broker.execute tool (Broker.args call)) as [r|e]; simpl in Hlocal |- *.
        -- eexists _, _. split; [reflexivity|]. split; [by left|]. split.
           ++ intros app0 [= <-] Hon. congruence.
           ++ done.
        -- destruct (catch_envelope_defined (Broker.id call) e Hlocal)
             as (m & Hmsg & ->).
           eexists _, _. split; [reflexivity|]. split; [by right|]. split.
           ++ intros app0 [= <-] Hon. congruence.
           ++ done.
      * eexists _, _. split; [reflexivity|]. split; [by right|]. split.
        -- intros app0 [= <-] Hon. congruence.
        -- done.
  - assert (Hoff : forall app0, match_app_prefix (Broker.name call) = Some app0 ->
                                Broker.isConnected api app0 = false).
    { intros app0. by rewrite Hm. }
    rewrite (handleToolCall_local api this call Hoff).
    assert (Hoff' : forall app0, @None string = Some app0 ->
                                 Broker.isConnected api app0 = false) by done.
    specialize (Hlocal Hoff').
    destruct (map_get (Broker.name call) (Broker.tools this)) as [tool|] eqn:Ht.
    + specialize (Hlocal tool eq_refl).
      destruct (Broker.execute tool (Broker.args call)) as [r|e]; simpl in Hlocal |- *.
      * eexists _, _. split; [reflexivity|]. split; [by left|]. by split.
      * destruct (catch_envelope_defined (Broker.id call) e Hlocal)
          as (m & Hmsg & ->).
        eexists _, _. split; [reflexivity|]. split; [by right|]. by split.
    + eexists _, _. split; [reflexivity|]. split; [by right|]. by split.
Qed.

Lemma C2_witness :
  Broker.handleToolCall Fixtures.offline Fixtures.one_tool Fixtures.search_call =
  Return (VObject [("output", VString "results"); ("id", VString "call-1");
                   ("error", VNull)]).
Proof.
  destruct (C2_envelope_follows_outcome Fixtures.offline Fixtures.one_tool
              Fixtures.search_call) as (output & error & H & _ & _ & Hlocal).
  - intros app H. discriminate H.
  - intros _ tool [= <-]. reflexivity.
  - destruct Hlocal as [Hout Herr]; [intros app Happ; discriminate Happ|].
    rewrite H, Hout, Herr. reflexivity.
Defined.

(** C3 as stated fails: a backend result whose [output] is 0 is not
    unwrapped to 0 (as [??] would), the whole result is returned. *)
Lemma C3_counterexample :
  Broker.executeTool Fixtures.gmail_only "gmail_send" (VObject []) =
    Return Fixtures.zero_result
  /\ get_prop Fixtures.zero_result "output" = Return (VNumber 0)
  /\ Broker.handleToolCall Fixtures.gmail_only Fixtures.one_tool Fixtures.gmail_call
     <> Return (VObject [("output", coalesce (VNumber 0) Fixtures.zero_result);
                         ("id", VString "call-3"); ("error", VNull)]).
Proof. repeat split. discriminate. Qed.

(** C3, amended: for a connector-routed call whose backend execution
    returns a result [r] other than undefined or null, the broker returns
    [{output: r.output || r, id, error: null}]: [r.output] when it is
    truthy, [r] itself otherwise; when the backend throws a value other
    than undefined or null, it returns [{output: null, id, error:
    message}]. *)
Theorem C3_connector_result_envelope
  (api : Broker.composioAPI) (this : Broker.ToolManager)
  (call : Broker.functionCall) (app : string) :
  match_app_prefix (Broker.name call) = Some app ->
  Broker.isConnected api app = true ->
  (forall r, Broker.executeTool api (Broker.name call) (Broker.args call) = Return r ->
     nullish r = false ->
     exists o, get_prop r "output" = Return o /\
       Broker.handleToolCall api this call =
       Return (VObject [("output", if truthy o then o else r);
                        ("id", Broker.id call); ("error", VNull)]))
  /\ (forall e, Broker.executeTool api (Broker.name call) (Broker.args call) = Throw e ->
     nullish e = false ->
     exists message, get_prop e "message" = Return message /\
       Broker.handleToolCall api this call =
       Return (VObject [("output", VNull); ("id", Broker.id call);
                        ("error", message)])).
Proof.
  intros Hm Hc. rewrite (handleToolCall_connector api this call app Hm Hc).
  split.
  - intros r -> Hr. destruct (get_prop_defined r "output" Hr) as [o Ho].
    exists o. split; [done|]. simpl. by rewrite Ho.
  - intros e -> He.
    destruct (catch_envelope_defined (Broker.id call) e He) as (m & Hm' & Henv).
    exists m. split; [done|]. exact Henv.
Qed.

Lemma C3_witness :
  Broker.handleToolCall Fixtures.gmail_only Fixtures.one_tool Fixtures.gmail_call =
  Return (VObject [("output", Fixtures.zero_result);
                   ("id", VString "call-3"); ("error", VNull)]).
Proof.
  destruct (C3_connector_result_envelope
              Fixtures.gmail_only Fixtures.one_tool Fixtures.gmail_call "gmail"
              eq_refl eq_refl) as [Hok _].
  destruct (Hok Fixtures.zero_result eq_refl eq_refl) as (o & [= <-] & ->).
  reflexivity.
Defined.

(* ===================================================================== *)
(** ** The registry *)
(* ===================================================================== *)

Section Registry.

Context {V : Type}.
Implicit Types (m : list (string * V)) (k : string) (v : V).

Lemma map_set_fresh k v m : map_get k m = None -> map_set k v m = m ++ [(k, v)].
Proof.
  induction m as [|[k' v'] m IH]; simpl; [done|].
  destruct (String.eqb k k'); [done|]. intros H. by rewrite IH.
Qed.

Lemma map_get_app k m m' :
  map_get k (m ++ m') = match map_get k m with Some v => Some v | None => map_get k m' end.
Proof.
  induction m as [|[k' v'] m IH]; simpl; [done|]. by destruct (String.eqb k k').
Qed.

Lemma map_get_None_keys k m : map_get k m = None <-> k ∉ m.*1.
Proof.
  induction m as [|[k' v'] m IH]; simpl.
  - split; [intros _; apply not_elem_of_nil | done].
  - rewrite not_elem_of_cons. destruct (String.eqb_spec k k') as [->|Hne].
    + split; [done | intros [? _]; done].
    + rewrite IH. tauto.
Qed.

Lemma map_get_elem k v m : NoDup m.*1 -> (k, v) ∈ m -> map_get k m = Some v.
Proof.
  induction m as [|[k' v'] m IH]; simpl.
  - intros _ H. by apply elem_of_nil in H.
  - rewrite NoDup_cons. intros [Hk' Hnd] [[= -> ->]|Hin]%elem_of_cons.
    + by rewrite String.eqb_refl.
    + destruct (String.eqb_spec k k') as [->|Hne]; [|by apply IH].
      exfalso. apply Hk'. apply list_elem_of_fmap. by exists (k', v).
Qed.

Lemma map_get_Some_elem k v m : map_get k m = Some v -> (k, v) ∈ m.
Proof.
  induction m as [|[k' v'] m IH]; simpl; [done|].
  destruct (String.eqb_spec k k') as [->|Hne].
  - intros [= ->]. apply elem_of_cons. by left.
  - intros H. apply elem_of_cons. right. by apply IH.
Qed.

End Registry.

Section Registration.

Import Broker.

Lemma registerTool_present (n : string) (t : tool) (this : ToolManager) :
  map_has n (tools this) = true ->
  registerTool n t this = (this, warn ("Tool " +:+ n +:+ " is already registered")).
Proof. intros H. unfold registerTool. by rewrite H. Qed.

Lemma registerTool_tools (n : string) (t : tool) (this : ToolManager) :
  tools (registerTool n t this).1 =
  if map_has n (tools this) then tools this else tools this ++ [(n, t)].
Proof.
  unfold registerTool, map_has.
  destruct (map_get n (tools this)) eqn:Hg; simpl; [done|].
  by apply map_set_fresh.
Qed.

Lemma registerTool_lookup (n k : string) (t : tool) (this : ToolManager) :
  map_get k (tools (registerTool n t this).1) =
  match map_get k (tools this) with
  | Some t0 => Some t0
  | None => if String.eqb k n then Some t else None
  end.
Proof.
  rewrite registerTool_tools. unfold map_has.
  destruct (map_get n (tools this)) eqn:Hn.
  - destruct (map_get k (tools this)) eqn:Hk; [done|].
    destruct (String.eqb_spec k n) as [->|]; [congruence | done].
  - rewrite map_get_app. simpl. by destruct (map_get k (tools this)).
Qed.

Lemma registerTool_NoDup (n : string) (t : tool) (this : ToolManager) :
  NoDup (tools this).*1 -> NoDup (tools (registerTool n t this).1).*1.
Proof.
  intros Hnd. rewrite registerTool_tools. unfold map_has.
  destruct (map_get n (tools this)) eqn:Hn; [done|].
  rewrite fmap_app. apply NoDup_app. split; [done|]. split.
  - intros x Hx [->|[]%elem_of_nil]%elem_of_cons.
    by apply map_get_None_keys in Hn.
  - apply NoDup_singleton.
Qed.

Lemma register_all_lookup (regs : list (string * tool)) (this : ToolManager) (k : string) :
  map_get k (tools (register_all regs this)) =
  match map_get k (tools this) with
  | Some t0 => Some t0
  | None => map_get k regs
  end.
Proof.
  revert this. induction regs as [|[n t] regs IH]; intros this; simpl.
  - by destruct (map_get k (tools this)).
  - unfold register_all in *. simpl. rewrite IH, registerTool_lookup.
    destruct (map_get k (tools this)); [done|]. by destruct (String.eqb k n).
Qed.

Lemma register_all_NoDup (regs : list (string * tool)) (this : ToolManager) :
  NoDup (tools this).*1 -> NoDup (tools (register_all regs this)).*1.
Proof.
  revert this. induction regs as [|[n t] regs IH]; intros this Hnd; [done|].
  apply IH. by apply registerTool_NoDup.
Qed.

Lemma register_all_composioTools (regs : list (string * tool)) (this : ToolManager) :
  composioTools (register_all regs this) = composioTools this.
Proof.
  revert this. induction regs as [|[n t] regs IH]; intros this; [done|].
  unfold register_all in *. simpl. rewrite IH.
  unfold registerTool. by destruct (map_has n (tools this)).
Qed.

Lemma local_declarations_elem (l : list (string * tool)) n t d :
  (n, t) ∈ l -> getDeclaration t = Some d -> d ∈ local_declarations l.
Proof.
  intros Hin Hd. apply list_elem_of_In, in_flat_map.
  exists (n, t). split; [by apply list_elem_of_In|]. simpl. rewrite Hd. by left.
Qed.

Lemma entries_named_app (x : string) (ds ds' : list declaration) :
  entries_named x (ds ++ ds') = (entries_named x ds + entries_named x ds')%nat.
Proof. unfold entries_named. by rewrite List.filter_app, length_app. Qed.

Lemma entries_named_none (l : list (string * tool)) (x : string) :
  (forall n t d, (n, t) ∈ l -> getDeclaration t = Some d -> decl_name d <> x) ->
  entries_named x (local_declarations l) = 0%nat.
Proof.
  induction l as [|[n t] l IH]; intros Hno; [done|].
  change (local_declarations ((n, t) :: l))
    with (match getDeclaration t with Some d => [d] | None => [] end
          ++ local_declarations l).
  rewrite entries_named_app, IH.
  - destruct (getDeclaration t) as [d|] eqn:Hd; [|done].
    unfold entries_named. simpl.
    destruct (String.eqb_spec (decl_name d) x) as [He|]; [|done].
    exfalso. eapply (Hno n t d); [apply elem_of_cons; by left | done | done].
  - intros n' t' d' Hin. apply (Hno n' t' d'). apply elem_of_cons. by right.
Qed.

Lemma entries_named_one (l : list (string * tool)) n t d :
  NoDup l.*1 -> (n, t) ∈ l -> getDeclaration t = Some d ->
  (forall n2 t2 d2, (n2, t2) ∈ l -> getDeclaration t2 = Some d2 ->
                    decl_name d2 = decl_name d -> n2 = n) ->
  entries_named (decl_name d) (local_declarations l) = 1%nat.
Proof.
  induction l as [|[n0 t0] l IH]; intros Hnd Hin Hd Hinj.
  - by apply elem_of_nil in Hin.
  - simpl in Hnd. apply NoDup_cons in Hnd as [Hn0 Hnd].
    change (local_declarations ((n0, t0) :: l))
      with (match getDeclaration t0 with Some d => [d] | None => [] end
            ++ local_declarations l).
    rewrite entries_named_app.
    apply elem_of_cons in Hin as [[= <- <-]|Hin].
    + rewrite Hd, entries_named_none.
      * unfold entries_named. simpl. by rewrite String.eqb_refl.
      * intros n2 t2 d2 Hin2 Hd2 Heq. apply Hn0.
        rewrite <- (Hinj n2 t2 d2); [|apply elem_of_cons; by right|done|done].
        apply list_elem_of_fmap. by exists (n2, t2).
    + rewrite IH; [| done | done | done |].
      * destruct (getDeclaration t0) as [d0|] eqn:Hd0; [|done].
        unfold entries_named. simpl.
        destruct (String.eqb_spec (decl_name d0) (decl_name d)) as [He|]; [|done].
        exfalso. apply Hn0.
        rewrite (Hinj n0 t0 d0); [|apply elem_of_cons; by left|done|done].
        apply list_elem_of_fmap. by exists (n, t).
      * intros n2 t2 d2 Hin2. apply (Hinj n2 t2 d2). apply elem_of_cons. by right.
Qed.

Lemma getToolDeclarations_local (regs : list (string * tool)) :
  getToolDeclarations (register_all regs constructor) =
  local_declarations (tools (register_all regs constructor)).
Proof.
  unfold getToolDeclarations. rewrite register_all_composioTools. simpl.
  by rewrite app_nil_r.
Qed.

End Registration.

(** C4 as stated fails: two tools registered under different names may
    declare the same name, and then two entries carry it (and none carries
    the second registration name). *)
Lemma C4_counterexample :
  map_get "imageSearch" (Broker.tools Fixtures.two_tools) = Some Fixtures.imageSearch
  /\ Broker.getDeclaration Fixtures.imageSearch = Some Fixtures.search_declaration
  /\ Broker.entries_named (Broker.decl_name Fixtures.search_declaration)
       (Broker.getToolDeclarations Fixtures.two_tools) = 2%nat
  /\ Broker.entries_named "imageSearch"
       (Broker.getToolDeclarations Fixtures.two_tools) = 0%nat.
Proof. repeat split. Qed.

(** C4, amended: after any sequence of local registrations, registering a
    name that is present changes nothing (a warning is logged) and the
    instance kept is the first one registered under that name; the
    declaration of a registered tool that has an accessor is among
    [getToolDeclarations()], and exactly one entry carries its declared
    name when no tool registered under another name declares that name. *)
Theorem C4_register_keeps_first_and_declares_once
  (regs : list (string * Broker.tool)) (n : string) (t : Broker.tool) :
  map_get n (Broker.tools (Broker.register_all regs Broker.constructor)) = Some t ->
  (forall t',
     Broker.registerTool n t' (Broker.register_all regs Broker.constructor)
     = (Broker.register_all regs Broker.constructor,
        Broker.warn ("Tool " +:+ n +:+ " is already registered")))
  /\ map_get n regs = Some t
  /\ (forall t',
       map_get n (Broker.tools (Broker.register_all (regs ++ [(n, t')])
                                  Broker.constructor)) = Some t)
  /\ (forall d, Broker.getDeclaration t = Some d ->
        d ∈ Broker.getToolDeclarations (Broker.register_all regs Broker.constructor)
        /\ ((forall n2 t2 d2,
               map_get n2 (Broker.tools (Broker.register_all regs Broker.constructor))
                 = Some t2 ->
               Broker.getDeclaration t2 = Some d2 ->
               Broker.decl_name d2 = Broker.decl_name d -> n2 = n) ->
            Broker.entries_named (Broker.decl_name d)
              (Broker.getToolDeclarations
                 (Broker.register_all regs Broker.constructor)) = 1%nat)).
Proof.
  intros Hreg.
  assert (Hnd : NoDup (Broker.tools (Broker.register_all regs Broker.constructor)).*1)
    by (apply register_all_NoDup; simpl; apply NoDup_nil_2).
  assert (Hfirst : map_get n regs = Some t)
    by (by rewrite register_all_lookup in Hreg).
  split; [|split; [|split]].
  - intros t'. apply registerTool_present. unfold map_has. by rewrite Hreg.
  - exact Hfirst.
  - intros t'. rewrite register_all_lookup. simpl.
    by rewrite map_get_app, Hfirst.
  - intros d Hd. rewrite getToolDeclarations_local.
    split.
    + eapply local_declarations_elem; [|exact Hd]. by apply map_get_Some_elem.
    + intros Hinj. apply (entries_named_one _ n t d); [done| |done|].
      * by apply map_get_Some_elem.
      * intros n2 t2 d2 Hin. apply Hinj. by apply map_get_elem.
Qed.

Lemma C4_witness :
  Broker.entries_named "googleSearch"
    (Broker.getToolDeclarations
       (Broker.register_all [("googleSearch", Fixtures.googleSearch)]
          Broker.constructor)) = 1%nat.
Proof.
  destruct (C4_register_keeps_first_and_declares_once
              [("googleSearch", Fixtures.googleSearch)] "googleSearch"
              Fixtures.googleSearch eq_refl) as (_ & _ & _ & Hdecl).
  destruct (Hdecl Fixtures.search_declaration eq_refl) as [_ Hone].
  apply Hone. intros n2 t2 d2 Hget _ _.
  simpl in Hget. destruct (String.eqb_spec n2 "googleSearch"); [done|discriminate].
Defined.

(* ===================================================================== *)
(** ** The connector tool source: cache and connection check *)
(* ===================================================================== *)

Section ConnectorCache.

Import ConnectorTools.

Lemma ensure_initialized_frame (s : state) :
  same_backend s (ensure_initialized s)
  /\ toolCache (ensure_initialized s).1 = toolCache s.1.
Proof.
  unfold ensure_initialized, same_backend. destruct s as [this ci]. simpl.
  destruct (initialized this); simpl; [done|].
  unfold integration_initialize.
  destruct (ci_initialized ci); simpl; [done|].
  by destruct (ci_initialize ci).
Qed.

Lemma getTools_not_connected (app : string) (actions tags : list string) (s : state) :
  isConnected s.2 app = false ->
  exists s',
    getTools app actions tags s =
      (Throw (new_Error ("Not connected to " +:+ app +:+ ". Please connect first.")), s')
    /\ same_backend s s' /\ toolCache s'.1 = toolCache s.1.
Proof.
  intros Hoff. destruct (ensure_initialized_frame s) as [Hsame Hcache].
  exists (ensure_initialized s). unfold getTools.
  destruct (ensure_initialized s) as [this ci] eqn:Hs1. simpl in *.
  destruct Hsame as (Hc & Hb & Hl). simpl in *. rewrite Hc, Hoff. simpl.
  repeat split; done.
Qed.

(** A truthy value under the key, own or inherited, is served as it is. *)
Lemma getTools_served (app : string) (actions tags : list string) (s : state) :
  isConnected s.2 app = true ->
  truthy (dict_get (toolCache s.1) (cacheKey app actions tags)) = true ->
  exists s',
    getTools app actions tags s
      = (Return (dict_get (toolCache s.1) (cacheKey app actions tags)), s')
    /\ same_backend s s' /\ toolCache s'.1 = toolCache s.1.
Proof.
  intros Hon Ht. destruct (ensure_initialized_frame s) as [Hsame Hcache].
  exists (ensure_initialized s). unfold getTools.
  destruct (ensure_initialized s) as [this ci] eqn:Hs1. simpl in *.
  destruct Hsame as (Hc & Hb & Hl). simpl in *. rewrite Hc, Hon. simpl.
  rewrite Hcache, Ht. repeat split; done.
Qed.

Lemma getTools_hit (app : string) (actions tags : list string) (s : state) (v : value) :
  isConnected s.2 app = true ->
  toolCache s.1 !! cacheKey app actions tags = Some v -> truthy v = true ->
  exists s',
    getTools app actions tags s = (Return v, s')
    /\ same_backend s s' /\ toolCache s'.1 = toolCache s.1.
Proof.
  intros Hon Hv Ht.
  assert (Hget : dict_get (toolCache s.1) (cacheKey app actions tags) = v)
    by (unfold dict_get; by rewrite Hv).
  destruct (getTools_served app actions tags s Hon) as (s' & H & Hrest).
  { by rewrite Hget. }
  exists s'. by rewrite <- Hget.
Qed.

Lemma getTools_miss (app : string) (actions tags : list string) (s : state) :
  isConnected s.2 app = true ->
  truthy (dict_get (toolCache s.1) (cacheKey app actions tags)) = false ->
  exists s',
    getTools app actions tags s =
      (backend s.2 (length (calls s.2)) app actions tags, s')
    /\ isConnected s'.2 = isConnected s.2 /\ backend s'.2 = backend s.2
    /\ calls s'.2 = calls s.2 ++ [(app, actions, tags)]
    /\ toolCache s'.1 =
       match backend s.2 (length (calls s.2)) app actions tags with
       | Return tools => <[cacheKey app actions tags := tools]> (toolCache s.1)
       | Throw _ => toolCache s.1
       end.
Proof.
  intros Hon Hmiss. destruct (ensure_initialized_frame s) as [Hsame Hcache].
  unfold getTools.
  destruct (ensure_initialized s) as [this ci] eqn:Hs1. simpl in *.
  destruct Hsame as (Hc & Hb & Hl). simpl in *. rewrite Hc, Hon. simpl.
  rewrite Hcache, Hmiss, Hb, Hl.
  destruct (backend s.2 (length (calls s.2)) app actions tags) as [v|e];
    eexists; (split; [reflexivity|]); simpl; rewrite ?Hl, ?Hcache; done.
Qed.

Lemma dict_get_insert_eq (d : gmap string value) (k : string) (v : value) :
  dict_get (<[k := v]> d) k = v.
Proof. unfold dict_get. by rewrite lookup_insert_eq. Qed.

Lemma dict_get_insert_ne (d : gmap string value) (k k' : string) (v : value) :
  k <> k' -> dict_get (<[k := v]> d) k' = dict_get d k'.
Proof. intros Hne. unfold dict_get. by rewrite lookup_insert_ne. Qed.

(** A miss answered with an array, then the same call again. *)
Lemma getTools_twice (app : string) (actions tags : list string) (s : state)
  (ts : list value) :
  isConnected s.2 app = true ->
  truthy (dict_get (toolCache s.1) (cacheKey app actions tags)) = false ->
  backend s.2 (length (calls s.2)) app actions tags = Return (VArray ts) ->
  exists s1 s2,
    getTools app actions tags s = (Return (VArray ts), s1)
    /\ toolCache s1.1 = <[cacheKey app actions tags := VArray ts]> (toolCache s.1)
    /\ calls s1.2 = calls s.2 ++ [(app, actions, tags)]
    /\ getTools app actions tags s1 = (Return (VArray ts), s2)
    /\ calls s2.2 = calls s1.2
    /\ isConnected s2.2 = isConnected s.2 /\ backend s2.2 = backend s.2.
Proof.
  intros Hon Hnone Hans.
  destruct (getTools_miss app actions tags s Hon Hnone)
    as (s1 & H1 & Hc1 & Hb1 & Hl1 & Hk1).
  rewrite Hans in H1, Hk1.
  destruct (getTools_hit app actions tags s1 (VArray ts)) as (s2 & H2 & (Hc2 & Hb2 & Hl2) & Hk2).
  { by rewrite Hc1. }
  { rewrite Hk1. apply lookup_insert_eq. }
  { done. }
  exists s1, s2. repeat split; try done; congruence.
Qed.

(** For a connected app whose key is served neither by the cache nor by an
    inherited member and whose listing answers with an array, the first
    [getTools(app, [], [])] makes one backend call and the second makes
    none and returns the cached array; [clearCache()] leaves the cache
    empty, and the third call makes exactly one more backend call. *)
Lemma getTools_caches_until_cleared (s : state) (app : string) (ts : list value) :
  isConnected s.2 app = true ->
  toolCache s.1 !! cacheKey app [] [] = None ->
  Object_prototype (cacheKey app [] []) = None ->
  backend s.2 (length (calls s.2)) app [] [] = Return (VArray ts) ->
  exists s1 s2 s3,
    getTools app [] [] s = (Return (VArray ts), s1)
    /\ calls s1.2 = calls s.2 ++ [(app, [], [])]
    /\ getTools app [] [] s1 = (Return (VArray ts), s2)
    /\ calls s2.2 = calls s1.2
    /\ toolCache (clearCache s2).1 = ∅
    /\ getTools app [] [] (clearCache s2)
       = (backend s.2 (S (length (calls s.2))) app [] [], s3)
    /\ calls s3.2 = calls s2.2 ++ [(app, [], [])].
Proof.
  intros Hon Hnone Hproto Hans.
  destruct (getTools_twice app [] [] s ts Hon)
    as (s1 & s2 & H1 & Hk1 & Hl1 & H2 & Hl2 & Hc2 & Hb2); [|done|].
  { unfold dict_get. by rewrite Hnone, Hproto. }
  destruct (getTools_miss app [] [] (clearCache s2))
    as (s3 & H3 & _ & _ & Hl3 & _).
  { simpl. by rewrite Hc2. }
  { simpl. unfold dict_get. by rewrite lookup_empty, Hproto. }
  exists s1, s2, s3. repeat split; try done.
  rewrite H3. simpl. rewrite Hb2, Hl2, Hl1, length_app. simpl.
  by rewrite Nat.add_1_r.
Qed.

End ConnectorCache.

(** C5: the claim fails at the app name [__proto], whose key is
    [__proto__]: the lookup in the cache object finds the member every
    object inherits under that name, so both calls return that object and
    the backend is never called. *)
Theorem C5_inherited_key_is_served_without_backend :
  ConnectorTools.isConnected Fixtures.proto_integration "__proto" = true
  /\ ConnectorTools.cacheKey "__proto" [] [] = "__proto__"
  /\ (ConnectorTools.getTools "__proto" [] []
        (ConnectorTools.constructor, Fixtures.proto_integration)).1
     = Return (VObject [])
  /\ (ConnectorTools.getTools "__proto" [] []
        (ConnectorTools.getTools "__proto" [] []
           (ConnectorTools.constructor, Fixtures.proto_integration)).2).1
     = Return (VObject [])
  /\ ConnectorTools.backend Fixtures.proto_integration 0 "__proto" [] []
     = Return (VArray [VString "__proto"; VNumber 0])
  /\ ConnectorTools.calls
       (ConnectorTools.getTools "__proto" [] []
          (ConnectorTools.getTools "__proto" [] []
             (ConnectorTools.constructor, Fixtures.proto_integration)).2).2.2
     = [].
Proof. repeat split. Qed.

(** C6: for an app that is not connected, [getTools] rejects with the
    error "Not connected to <app>. Please connect first.", whatever the
    cache holds; the backend is not called and the cache is unchanged. *)
Theorem C6_getTools_rejects_unconnected
  (s : ConnectorTools.state) (app : string) (actions tags : list string) :
  ConnectorTools.isConnected s.2 app = false ->
  exists s',
    ConnectorTools.getTools app actions tags s =
      (Throw (VError "Error" ("Not connected to " +:+ app +:+ ". Please connect first.")),
       s')
    /\ ConnectorTools.calls s'.2 = ConnectorTools.calls s.2
    /\ ConnectorTools.toolCache s'.1 = ConnectorTools.toolCache s.1.
Proof.
  intros Hoff.
  destruct (getTools_not_connected app actions tags s Hoff)
    as (s' & H & (_ & _ & Hl) & Hk).
  exists s'. done.
Qed.

Lemma C6_witness :
  ConnectorTools.toolCache Fixtures.stale.1 !! ConnectorTools.cacheKey "slack" [] []
    = Some (VArray [VString "slack"])
  /\ exists s',
    ConnectorTools.getTools "slack" [] [] Fixtures.stale =
      (Throw (VError "Error" "Not connected to slack. Please connect first."), s')
    /\ ConnectorTools.calls s'.2 = ConnectorTools.calls Fixtures.stale.2
    /\ ConnectorTools.toolCache s'.1 = ConnectorTools.toolCache Fixtures.stale.1.
Proof.
  split; [apply lookup_singleton_eq|].
  apply (C6_getTools_rejects_unconnected Fixtures.stale "slack" [] []).
  reflexivity.
Defined.

(** C7 as stated fails: the key joins the filter lists in the order given,
    so a permuted action list has another key and the second call goes to
    the backend again (its answer carries call number 1). *)
Lemma C7_counterexample :
  Permutation ["a"; "b"] ["b"; "a"]
  /\ ConnectorTools.cacheKey "gmail" ["a"; "b"] [] = "gmail_a,b_"
  /\ ConnectorTools.cacheKey "gmail" ["b"; "a"] [] = "gmail_b,a_"
  /\ (ConnectorTools.getTools "gmail" ["b"; "a"] []
        (ConnectorTools.getTools "gmail" ["a"; "b"] [] Fixtures.fresh).2).1
     = Return (VArray [VString "gmail"; VNumber 1])
  /\ ConnectorTools.calls
       (ConnectorTools.getTools "gmail" ["b"; "a"] []
          (ConnectorTools.getTools "gmail" ["a"; "b"] [] Fixtures.fresh).2).2.2
     = [("gmail", ["a"; "b"], []); ("gmail", ["b"; "a"], [])].
Proof.
  split; [apply perm_swap|]. repeat split; vm_compute; reflexivity.
Qed.

(** C7, amended: the cache is keyed by the string
    [appName_actions.join(',')_tags.join(',')], the lists taken in the
    order given.  For a connected app and a key under which the cache
    object serves nothing (no truthy entry of its own, no inherited
    member), a call that is answered with an array stores it under that
    key; a later call for the app returns the stored array without a
    backend call when its filters give the same key, in particular the
    same lists in the same order, and goes to the backend when they give
    another key under which nothing is served. *)
Theorem C7_same_filters_same_entry
  (s : ConnectorTools.state) (app : string) (actions tags : list string)
  (ts : list value) :
  ConnectorTools.isConnected s.2 app = true ->
  truthy (dict_get (ConnectorTools.toolCache s.1)
            (ConnectorTools.cacheKey app actions tags)) = false ->
  ConnectorTools.backend s.2 (length (ConnectorTools.calls s.2)) app actions tags
    = Return (VArray ts) ->
  exists s1,
    ConnectorTools.getTools app actions tags s = (Return (VArray ts), s1)
    /\ ConnectorTools.toolCache s1.1
       = <[ConnectorTools.cacheKey app actions tags := VArray ts]>
           (ConnectorTools.toolCache s.1)
    /\ ConnectorTools.calls s1.2
       = ConnectorTools.calls s.2 ++ [(app, actions, tags)]
    /\ (forall actions' tags',
          ConnectorTools.cacheKey app actions' tags'
            = ConnectorTools.cacheKey app actions tags ->
          exists s2,
            ConnectorTools.getTools app actions' tags' s1 = (Return (VArray ts), s2)
            /\ ConnectorTools.calls s2.2 = ConnectorTools.calls s1.2)
    /\ (forall actions' tags',
          ConnectorTools.cacheKey app actions' tags'
            <> ConnectorTools.cacheKey app actions tags ->
          truthy (dict_get (ConnectorTools.toolCache s.1)
                    (ConnectorTools.cacheKey app actions' tags')) = false ->
          exists s2,
            ConnectorTools.getTools app actions' tags' s1
              = (ConnectorTools.backend s.2 (S (length (ConnectorTools.calls s.2)))
                   app actions' tags', s2)
            /\ ConnectorTools.calls s2.2
               = ConnectorTools.calls s1.2 ++ [(app, actions', tags')]).
Proof.
  intros Hon Hnone Hans.
  destruct (getTools_miss app actions tags s Hon Hnone)
    as (s1 & H1 & Hc1 & Hb1 & Hl1 & Hk1).
  rewrite Hans in H1, Hk1.
  exists s1. split; [done|]. split; [done|]. split; [done|]. split.
  - intros actions' tags' Hkey.
    destruct (getTools_hit app actions' tags' s1 (VArray ts))
      as (s2 & H2 & (_ & _ & Hl2) & _).
    + by rewrite Hc1.
    + rewrite Hk1, Hkey. apply lookup_insert_eq.
    + done.
    + by exists s2.
  - intros actions' tags' Hkey Hnone'.
    destruct (getTools_miss app actions' tags' s1)
      as (s2 & H2 & _ & _ & Hl2 & _).
    + by rewrite Hc1.
    + rewrite Hk1, dict_get_insert_ne by done. exact Hnone'.
    + exists s2. split; [|done].
      rewrite H2, Hb1, Hl1, length_app. simpl. by rewrite Nat.add_1_r.
Qed.

Lemma C7_witness :
  exists s1,
    ConnectorTools.getTools "gmail" ["a"; "b"] [] Fixtures.fresh
      = (Return (VArray [VString "gmail"; VNumber 0]), s1)
    /\ ConnectorTools.toolCache s1.1
       = <["gmail_a,b_" := VArray [VString "gmail"; VNumber 0]]> ∅
    /\ ConnectorTools.calls s1.2 = [("gmail", ["a"; "b"], [])]
    /\ (forall actions' tags',
          ConnectorTools.cacheKey "gmail" actions' tags'
            = ConnectorTools.cacheKey "gmail" ["a"; "b"] [] ->
          exists s2,
            ConnectorTools.getTools "gmail" actions' tags' s1
              = (Return (VArray [VString "gmail"; VNumber 0]), s2)
            /\ ConnectorTools.calls s2.2 = ConnectorTools.calls s1.2)
    /\ (forall actions' tags',
          ConnectorTools.cacheKey "gmail" actions' tags'
            <> ConnectorTools.cacheKey "gmail" ["a"; "b"] [] ->
          truthy (dict_get (ConnectorTools.toolCache Fixtures.fresh.1)
                    (ConnectorTools.cacheKey "gmail" actions' tags')) = false ->
          exists s2,
            ConnectorTools.getTools "gmail" actions' tags' s1
              = (ConnectorTools.backend Fixtures.fresh.2 1 "gmail" actions' tags', s2)
            /\ ConnectorTools.calls s2.2
               = ConnectorTools.calls s1.2 ++ [("gmail", actions', tags')]).
Proof.
  apply (C7_same_filters_same_entry Fixtures.fresh "gmail" ["a"; "b"] []
           [VString "gmail"; VNumber 0]); reflexivity.
Defined.

(* ===================================================================== *)
(** ** The personalization path: batches of tool calls *)
(* ===================================================================== *)

Section Batches.

Import MCP.

Variable JSON_parse : string -> value + string.
Variable this : MCPClient.

Lemma Promise_all_app {A} (ps qs : list (completion A)) (xs ys : list A) :
  Promise_all ps = Return xs -> Promise_all qs = Return ys ->
  Promise_all (ps ++ qs) = Return (xs ++ ys).
Proof.
  revert xs. induction ps as [|p ps IH]; intros xs; simpl.
  - intros [= <-]. done.
  - destruct p as [x|e]; simpl; [|done].
    destruct (Promise_all ps) as [xs'|e] eqn:Hps; simpl; [|done].
    intros [= <-] Hq. by rewrite (IH xs' eq_refl Hq).
Qed.

(** A batch none of whose calls rejects settles to the list of results,
    one per call and in the order of the calls. *)
Lemma Promise_all_map {A B} (f : A -> completion B) (l : list A) :
  (forall x, x ∈ l -> exists y, f x = Return y) ->
  exists ys, Promise_all (map f l) = Return ys
             /\ Forall2 (fun x y => f x = Return y) l ys.
Proof.
  induction l as [|x l IH]; intros Hall; simpl.
  - exists []. split; [done | constructor].
  - destruct (Hall x) as [y Hy]; [apply elem_of_cons; by left|].
    destruct IH as (ys & Hys & Hf).
    { intros x' Hx'. apply Hall. apply elem_of_cons. by right. }
    exists (y :: ys). rewrite Hy, Hys. split; [done | by constructor].
Qed.

(** A call returns a result unless its handler throws undefined or null;
    the result echoes id and name, and its status tells whether the call
    was served. *)
Lemma handleToolCall_settles (call : toolCall) :
  handler_throws_nullish JSON_parse this call = false ->
  exists r, handleToolCall JSON_parse this call = Return r
    /\ obj_get "toolCallId" (match r with VObject o => o | _ => [] end) = id call
    /\ obj_get "name" (match r with VObject o => o | _ => [] end) = VString (name call)
    /\ obj_get "status" (match r with VObject o => o | _ => [] end)
       = VString (if fails JSON_parse this call then "error" else "success").
Proof.
  unfold handler_throws_nullish, handleToolCall, fails.
  destruct (map_get (name call) (tools this)) as [tool|]; [|by eexists].
  destruct (parseArgs JSON_parse (arguments call)) as [a|e] eqn:Hargs; simpl.
  - destruct (handler tool a) as [v|e]; simpl; [by eexists|].
    intros He. destruct (get_prop_defined e "message" He) as [m ->]. by eexists.
  - intros _. unfold parseArgs, parse in Hargs.
    destruct (arguments call); try discriminate Hargs.
    destruct (JSON_parse s); [discriminate Hargs|].
    injection Hargs as <-. by eexists.
Qed.

Lemma onMessage_batch (calls : list toolCall) (results : list value) :
  Promise_all (map (handleToolCall JSON_parse this) calls) = Return results ->
  onMessage JSON_parse this (batch calls) = [tool_results results].
Proof. intros H. unfold onMessage, batch. simpl. by rewrite H. Qed.

End Batches.

(** C8 as stated fails: a call that names no registered handler yields a
    [status: "error"] entry although no handler threw. *)
Lemma C8_counterexample :
  map_get (MCP.name Fixtures.missing_call) (MCP.tools Fixtures.client) = None
  /\ MCP.onMessage Fixtures.sample_JSON_parse Fixtures.client
       (MCP.batch [Fixtures.echo_call; Fixtures.missing_call])
     = [VObject
          [("type", VString "tool_results");
           ("results",
            VArray
              [VObject [("toolCallId", VString "t1"); ("name", VString "echo");
                        ("status", VString "success"); ("result", VObject [])];
               VObject [("toolCallId", VString "t4"); ("name", VString "missing");
                        ("status", VString "error");
                        ("error", VString "Tool not found: missing")]])]].
Proof. split; reflexivity. Qed.

(** C8, amended: for a batch of n calls none of whose handlers throws
    undefined or null, the listener sends exactly one [tool_results]
    message with exactly n entries, in the order of the calls; the entry of
    a call echoes its id and name and has [status: "error"] when the call
    names no registered handler, its string arguments do not decode or its
    handler throws, and [status: "success"] otherwise. *)
Theorem C8_batch_reply_is_join_all
  (JSON_parse : string -> value + string) (this : MCP.MCPClient)
  (calls : list MCP.toolCall) :
  (forall call, call ∈ calls ->
     MCP.handler_throws_nullish JSON_parse this call = false) ->
  exists results,
    MCP.onMessage JSON_parse this (MCP.batch calls)
      = [VObject [("type", VString "tool_results"); ("results", VArray results)]]
    /\ length results = length calls
    /\ forall i call, calls !! i = Some call ->
         exists entry,
           results !! i = Some (VObject entry)
           /\ MCP.handleToolCall JSON_parse this call = Return (VObject entry)
           /\ obj_get "toolCallId" entry = MCP.id call
           /\ obj_get "name" entry = VString (MCP.name call)
           /\ obj_get "status" entry =
              VString (if MCP.fails JSON_parse this call then "error" else "success").
Proof.
  intros Hsafe.
  destruct (Promise_all_map (MCP.handleToolCall JSON_parse this) calls)
    as (results & Hall & Hf).
  { intros call Hin.
    destruct (handleToolCall_settles JSON_parse this call (Hsafe call Hin))
      as (r & Hr & _). by exists r. }
  exists results. split; [by apply onMessage_batch|].
  split; [symmetry; by eapply Forall2_length|].
  intros i call Hi.
  destruct (Forall2_lookup_l _ _ _ _ _ Hf Hi) as (r & Hr & Hcall).
  destruct (handleToolCall_settles JSON_parse this call) as (r' & Hr' & Hid & Hn & Hs).
  { apply Hsafe. by eapply list_elem_of_lookup_2. }
  rewrite Hcall in Hr'. injection Hr' as <-.
  assert (exists entry, r = VObject entry) as [entry ->].
  { destruct r; simpl in Hn; try discriminate Hn. by eexists. }
  exists entry. done.
Qed.

Lemma C8_witness :
  exists results,
    MCP.onMessage Fixtures.sample_JSON_parse Fixtures.client
      (MCP.batch [Fixtures.echo_call; Fixtures.broken_call; Fixtures.echo_call])
      = [VObject [("type", VString "tool_results"); ("results", VArray results)]]
    /\ length results = 3%nat
    /\ forall i call,
         [Fixtures.echo_call; Fixtures.broken_call; Fixtures.echo_call] !! i = Some call ->
         exists entry,
           results !! i = Some (VObject entry)
           /\ MCP.handleToolCall Fixtures.sample_JSON_parse Fixtures.client call
              = Return (VObject entry)
           /\ obj_get "toolCallId" entry = MCP.id call
           /\ obj_get "name" entry = VString (MCP.name call)
           /\ obj_get "status" entry =
              VString (if MCP.fails Fixtures.sample_JSON_parse Fixtures.client call
                       then "error" else "success").
Proof.
  apply (C8_batch_reply_is_join_all Fixtures.sample_JSON_parse Fixtures.client
           [Fixtures.echo_call; Fixtures.broken_call; Fixtures.echo_call]).
  intros call Hin.
  apply list_elem_of_In in Hin. simpl in Hin.
  destruct Hin as [<-|[<-|[<-|[]]]]; reflexivity.
Defined.

(** C10: a call whose handler is registered and whose arguments are a
    string that [JSON.parse] rejects returns a [status: "error"] result
    carrying the parse error's message (the error's name when the message
    is empty) instead of rejecting; in a batch whose other calls return,
    the reply is still sent with every result. *)
Theorem C10_undecodable_arguments_yield_error_result
  (JSON_parse : string -> value + string) (this : MCP.MCPClient)
  (call : MCP.toolCall) (tool : MCP.registeredTool) (s message : string) :
  map_get (MCP.name call) (MCP.tools this) = Some tool ->
  MCP.arguments call = VString s ->
  JSON_parse s = inr message ->
  MCP.handleToolCall JSON_parse this call
  = Return (MCP.error_result (MCP.id call) (MCP.name call)
              (VString (if String.eqb message EmptyString then "SyntaxError" else message)))
  /\ forall before after rs rs',
       MCP.Promise_all (map (MCP.handleToolCall JSON_parse this) before) = Return rs ->
       MCP.Promise_all (map (MCP.handleToolCall JSON_parse this) after) = Return rs' ->
       MCP.onMessage JSON_parse this (MCP.batch (before ++ call :: after))
       = [MCP.tool_results
            (rs ++ MCP.error_result (MCP.id call) (MCP.name call)
                     (VString (if String.eqb message EmptyString then "SyntaxError"
                               else message)) :: rs')].
Proof.
  intros Htool Hargs Hparse.
  assert (Hcall : MCP.handleToolCall JSON_parse this call
    = Return (MCP.error_result (MCP.id call) (MCP.name call)
                (VString (if String.eqb message EmptyString then "SyntaxError" else message)))).
  { unfold MCP.handleToolCall, MCP.parseArgs, MCP.parse.
    rewrite Htool, Hargs, Hparse. simpl. unfold logical_or. simpl.
    by destruct (String.eqb message EmptyString). }
  split; [exact Hcall|].
  intros before after rs rs' Hb Ha. apply onMessage_batch.
  rewrite map_app. apply Promise_all_app; [done|].
  simpl. by rewrite Hcall, Ha.
Qed.

Lemma C10_witness :
  MCP.handleToolCall Fixtures.sample_JSON_parse Fixtures.client Fixtures.garbled_call
  = Return (VObject [("toolCallId", VString "t3"); ("name", VString "echo");
                     ("status", VString "error");
                     ("error", VString "Unexpected token in JSON")]).
Proof.
  apply (C10_undecodable_arguments_yield_error_result
           Fixtures.sample_JSON_parse Fixtures.client Fixtures.garbled_call
           Fixtures.echo "{oops" "Unexpected token in JSON");
    reflexivity.
Defined.

(* ===================================================================== *)
(** ** Retrieval options *)
(* ===================================================================== *)

Section Spread.

Implicit Types (o : list (string * value)) (k : string) (v : value).

Lemma obj_get_absent k o : k ∉ o.*1 -> obj_get k o = VUndefined.
Proof.
  induction o as [|[k' v'] o IH]; simpl; [done|].
  rewrite not_elem_of_cons. intros [Hne Hk].
  destruct (String.eqb_spec k k'); [done | by apply IH].
Qed.

Lemma logical_or_default k o (d : value) : logical_or (obj_get k o) d = d \/ k ∈ o.*1.
Proof.
  destruct (decide (k ∈ o.*1)) as [|Hk]; [by right|].
  left. by rewrite (obj_get_absent k o Hk).
Qed.

Lemma obj_set_keys k v o : k ∈ o.*1 -> (obj_set k v o).*1 = o.*1.
Proof.
  induction o as [|[k' v'] o IH]; simpl.
  - intros H. by apply elem_of_nil in H.
  - destruct (String.eqb_spec k k') as [->|Hne]; [done|].
    intros [?|Hin]%elem_of_cons; [done|]. simpl. f_equal. by apply IH.
Qed.

Lemma obj_set_keys_fresh k v o : k ∉ o.*1 -> (obj_set k v o).*1 = o.*1 ++ [k].
Proof.
  induction o as [|[k' v'] o IH]; simpl; [done|].
  rewrite not_elem_of_cons. intros [Hne Hk].
  destruct (String.eqb_spec k k'); [done|]. simpl. f_equal. by apply IH.
Qed.

Lemma obj_set_NoDup k v o : NoDup o.*1 -> NoDup (obj_set k v o).*1.
Proof.
  intros Hnd. destruct (decide (k ∈ o.*1)) as [Hin|Hout].
  - by rewrite obj_set_keys.
  - rewrite obj_set_keys_fresh by done. apply NoDup_app. split; [done|].
    split; [|apply NoDup_singleton].
    intros x Hx [->|[]%elem_of_nil]%elem_of_cons. done.
Qed.

Lemma agree_set k v (pending : list string) o1 o2 :
  NoDup o1.*1 -> agree (k :: pending) o1 o2 ->
  agree pending (obj_set k v o1) (obj_set k v o2).
Proof.
  intros Hnd Hag. induction Hag as [|[k1 v1] [k2 v2] o1 o2 [Hk Hv] Hag IH]; simpl in *.
  - constructor; [|constructor]. split; [done | by left].
  - subst k2. apply NoDup_cons in Hnd as [Hk1 Hnd].
    destruct (String.eqb_spec k k1) as [->|Hne].
    + constructor; [split; [done | by left]|].
      clear IH. induction Hag as [|[k3 v3] [k4 v4] o1 o2 [Hk' Hv'] Hag IH];
        [constructor|]. simpl in *. subst k4.
      apply not_elem_of_cons in Hk1 as [Hne Hk1].
      apply NoDup_cons in Hnd as [_ Hnd].
      constructor; [|by apply IH]. split; [done|]. simpl.
      destruct Hv' as [->|[?|Hin]%elem_of_cons]; [by left | congruence | by right].
    + constructor; [|by apply IH]. split; [done|]. simpl.
      destruct Hv as [->|[?|Hin]%elem_of_cons]; [by left | congruence | by right].
Qed.

Lemma agree_nil o1 o2 : agree [] o1 o2 -> o1 = o2.
Proof.
  induction 1 as [|[k1 v1] [k2 v2] o1 o2 [Hk Hv] Hag IH]; [done|].
  simpl in *. subst. destruct Hv as [->|[]%elem_of_nil]. done.
Qed.

Lemma obj_spread_agree (src : list (string * value)) o1 o2 :
  NoDup o1.*1 -> agree src.*1 o1 o2 -> obj_spread src o1 = obj_spread src o2.
Proof.
  revert o1 o2. induction src as [|[k v] src IH]; intros o1 o2 Hnd Hag; simpl.
  - by apply agree_nil.
  - apply IH; [by apply obj_set_NoDup | by apply agree_set].
Qed.

(** The literal of [retrieveMemories] builds the defaults merged under the
    caller's options. *)
Lemma retrievalOptions_merge (options : list (string * value)) :
  Memory.retrievalOptions options = Memory.merged_under_overrides options.
Proof.
  unfold Memory.retrievalOptions, Memory.merged_under_overrides.
  apply obj_spread_agree.
  - simpl. apply (bool_decide_unpack _). by vm_compute.
  - unfold agree, Memory.default_options.
    repeat (constructor; [split; [done | apply logical_or_default]|]). constructor.
Qed.

End Spread.

(** C9: [retrieveMemories(query, options)] sends the retrieve message whose
    options are the defaults [{limit: 10, offset: 0, sortBy: "timestamp",
    sortDirection: "desc"}] merged under the caller's options: with empty
    (or omitted) options the four defaults, with [{limit: 5}] the limit 5
    and the other three defaults. *)
Theorem C9_retrieval_options_default_under_overrides
  (sendMessage : value -> completion value) (query : value) :
  (forall options,
     Memory.retrieveMemories sendMessage query (Some options)
     = sendMessage
         (VObject [("type", VString "memory"); ("action", VString "retrieve");
                   ("query", query);
                   ("options", VObject (Memory.merged_under_overrides options))]))
  /\ Memory.retrieveMemories sendMessage query None
     = Memory.retrieveMemories sendMessage query (Some [])
  /\ Memory.retrievalOptions []
     = [("limit", VNumber 10); ("offset", VNumber 0);
        ("sortBy", VString "timestamp"); ("sortDirection", VString "desc")]
  /\ Memory.retrievalOptions [("limit", VNumber 5)]
     = [("limit", VNumber 5); ("offset", VNumber 0);
        ("sortBy", VString "timestamp"); ("sortDirection", VString "desc")].
Proof.
  split; [|repeat split].
  intros options. unfold Memory.retrieveMemories, Memory.retrieve_message. simpl.
  rewrite retrievalOptions_merge.
  by destruct (sendMessage _).
Qed.

(* ===================================================================== *)
(** ** Further properties of the registry and the broker *)
(* ===================================================================== *)

Section MapLaws.

Context {V : Type}.
Implicit Types (m : list (string * V)) (k : string) (v : V).

Lemma map_get_set_eq k v m : map_get k (map_set k v m) = Some v.
Proof.
  induction m as [|[k' v'] m IH]; simpl.
  - by rewrite String.eqb_refl.
  - destruct (String.eqb k k') eqn:He; simpl; by rewrite He.
Qed.

Lemma map_get_set_ne k k' v m : k' <> k -> map_get k' (map_set k v m) = map_get k' m.
Proof.
  intros Hne. induction m as [|[k0 v0] m IH]; simpl.
  - by destruct (String.eqb_spec k' k).
  - destruct (String.eqb_spec k k0) as [->|]; simpl.
    + by destruct (String.eqb_spec k' k0).
    + by rewrite IH.
Qed.

Lemma map_set_keys k v m :
  (map_set k v m).*1 = if map_has k m then m.*1 else m.*1 ++ [k].
Proof.
  unfold map_has. induction m as [|[k' v'] m IH]; [done|].
  cbn [map_set map_get]. destruct (String.eqb_spec k k') as [->|]; [done|].
  rewrite !fmap_cons, IH. by destruct (map_get k m).
Qed.

Lemma map_set_NoDup k v m : NoDup m.*1 -> NoDup (map_set k v m).*1.
Proof.
  intros Hnd. rewrite map_set_keys. unfold map_has.
  destruct (map_get k m) eqn:Hk; [done|].
  apply NoDup_app. split; [done|]. split; [|apply NoDup_singleton].
  intros x Hx [->|[]%elem_of_nil]%elem_of_cons.
  by apply map_get_None_keys in Hk.
Qed.

End MapLaws.

(** X1: registering a name that is free appends the tool: it is found
    under its name afterwards, every other lookup is unchanged, and its
    declaration (when it has one) comes after the local declarations
    already there and before the connector ones. *)
Theorem X1_registerTool_appends
  (n : string) (t : Broker.tool) (this : Broker.ToolManager) :
  map_has n (Broker.tools this) = false ->
  Broker.registerTool n t this
  = ({| Broker.tools := Broker.tools this ++ [(n, t)];
        Broker.composioTools := Broker.composioTools this |},
     Broker.info ("Tool " +:+ n +:+ " registered successfully"))
  /\ map_get n (Broker.tools (Broker.registerTool n t this).1) = Some t
  /\ (forall k, k <> n ->
        map_get k (Broker.tools (Broker.registerTool n t this).1)
        = map_get k (Broker.tools this))
  /\ Broker.getToolDeclarations (Broker.registerTool n t this).1
     = Broker.local_declarations (Broker.tools this)
       ++ match Broker.getDeclaration t with Some d => [d] | None => [] end
       ++ Broker.connector_declarations (Broker.composioTools this).
Proof.
  intros Hfree.
  assert (Hnone : map_get n (Broker.tools this) = None).
  { unfold map_has in Hfree. by destruct (map_get n (Broker.tools this)). }
  assert (Hreg : Broker.registerTool n t this
    = ({| Broker.tools := Broker.tools this ++ [(n, t)];
          Broker.composioTools := Broker.composioTools this |},
       Broker.info ("Tool " +:+ n +:+ " registered successfully"))).
  { unfold Broker.registerTool. rewrite Hfree. by rewrite map_set_fresh. }
  rewrite Hreg. simpl. repeat split.
  - rewrite map_get_app, Hnone. simpl. by rewrite String.eqb_refl.
  - intros k Hk. rewrite map_get_app. destruct (map_get k (Broker.tools this)); [done|].
    simpl. by destruct (String.eqb_spec k n).
  - unfold Broker.getToolDeclarations, Broker.local_declarations. simpl.
    rewrite flat_map_app. simpl. by rewrite app_nil_r, <- app_assoc.
Qed.

Lemma X1_witness :
  Broker.getToolDeclarations
    (Broker.registerTool "googleSearch" Fixtures.googleSearch Broker.constructor).1
  = [Fixtures.search_declaration].
Proof.
  apply (X1_registerTool_appends "googleSearch" Fixtures.googleSearch
           Broker.constructor).
  reflexivity.
Defined.

(** X2: whatever sequence of registrations is offered to a new manager, no
    name is stored twice, the names stored are exactly the names offered,
    and there is at most one declaration per stored tool. *)
Theorem X2_register_all_names (regs : list (string * Broker.tool)) :
  NoDup (Broker.tools (Broker.register_all regs Broker.constructor)).*1
  /\ (forall n, n ∈ (Broker.tools (Broker.register_all regs Broker.constructor)).*1
                <-> n ∈ regs.*1)
  /\ (length (Broker.getToolDeclarations (Broker.register_all regs Broker.constructor))
      <= length (Broker.tools (Broker.register_all regs Broker.constructor)))%nat.
Proof.
  split; [|split].
  - apply register_all_NoDup. simpl. apply NoDup_nil_2.
  - intros n.
    pose proof (register_all_lookup regs Broker.constructor n) as Hl. simpl in Hl.
    destruct (decide (n ∈ regs.*1)) as [Hin|Hout].
    + split; [done|]. intros _.
      destruct (decide (n ∈ (Broker.tools
                  (Broker.register_all regs Broker.constructor)).*1)) as [|Hno];
        [done|].
      apply map_get_None_keys in Hno. rewrite Hno in Hl. symmetry in Hl.
      by apply map_get_None_keys in Hl.
    + split; [|done]. intros Hin. exfalso.
      apply map_get_None_keys in Hout. rewrite Hout in Hl.
      by apply map_get_None_keys in Hl.
  - rewrite getToolDeclarations_local.
    induction (Broker.tools (Broker.register_all regs Broker.constructor))
      as [|[n t] l IH]; simpl; [done|].
    rewrite length_app.
    destruct (Broker.getDeclaration t); simpl; lia.
Qed.

(** X3: a call whose prefix names a connected app is answered by the
    connector alone: the local registry is not consulted, so a local tool
    registered under the same name is never run. *)
Theorem X3_connector_route_ignores_registry
  (api : Broker.composioAPI) (this this' : Broker.ToolManager)
  (call : Broker.functionCall) (app : string) :
  match_app_prefix (Broker.name call) = Some app ->
  Broker.isConnected api app = true ->
  Broker.handleToolCall api this call = Broker.handleToolCall api this' call.
Proof.
  intros Hm Hc.
  by rewrite !(handleToolCall_connector api _ call app Hm Hc).
Qed.

Lemma X3_witness :
  map_get "gmail_send" (Broker.tools Fixtures.shadowed) = Some Fixtures.local_gmail_send
  /\ Broker.handleToolCall Fixtures.gmail_only Fixtures.shadowed Fixtures.gmail_call
     = Broker.handleToolCall Fixtures.gmail_only Broker.constructor Fixtures.gmail_call.
Proof.
  split; [reflexivity|].
  apply (X3_connector_route_ignores_registry Fixtures.gmail_only Fixtures.shadowed
           Broker.constructor Fixtures.gmail_call "gmail"); reflexivity.
Defined.

(** X4: registering the tools of a connected app whose listing succeeds
    stores the list under the app name, replacing an earlier list of that
    app, and leaves the local tools and the lists of the other apps alone;
    app names stay unique and every fetched tool is declared. *)
Theorem X4_registerComposioTool_stores_listing
  (api : Broker.composioAPI) (app : string) (this : Broker.ToolManager)
  (ts : list Broker.composioTool) :
  Broker.isConnected api app = true ->
  Broker.getTools api app = Return ts ->
  Broker.tools (Broker.registerComposioTool api app this) = Broker.tools this
  /\ map_get app (Broker.composioTools (Broker.registerComposioTool api app this))
     = Some ts
  /\ (forall k, k <> app ->
        map_get k (Broker.composioTools (Broker.registerComposioTool api app this))
        = map_get k (Broker.composioTools this))
  /\ (NoDup (Broker.composioTools this).*1 ->
      NoDup (Broker.composioTools (Broker.registerComposioTool api app this)).*1)
  /\ (forall t, t ∈ ts ->
        Broker.function t
        ∈ Broker.getToolDeclarations (Broker.registerComposioTool api app this)).
Proof.
  intros Hc Hts. unfold Broker.registerComposioTool. rewrite Hc, Hts. simpl.
  split; [done|]. split; [apply map_get_set_eq|].
  split; [intros k Hk; by apply map_get_set_ne|].
  split; [apply map_set_NoDup|].
  intros t Ht. unfold Broker.getToolDeclarations. simpl.
  apply elem_of_app. right. unfold Broker.connector_declarations.
  apply list_elem_of_In, in_flat_map. exists (app, ts). split.
  - apply list_elem_of_In, map_get_Some_elem, map_get_set_eq.
  - simpl. apply in_map. by apply list_elem_of_In.
Qed.

Lemma X4_witness :
  map_get "gmail"
    (Broker.composioTools
       (Broker.registerComposioTool Fixtures.gmail_listing "gmail" Fixtures.one_tool))
  = Some [Fixtures.gmail_tool].
Proof.
  apply (X4_registerComposioTool_stores_listing Fixtures.gmail_listing "gmail"
           Fixtures.one_tool [Fixtures.gmail_tool]); reflexivity.
Defined.

(** X5: when the connector executor resolves to undefined or null, the
    read of [result.output] throws inside the [try], so the broker answers
    with an error envelope (null output, a message) and not with a
    success. *)
Theorem X5_connector_nullish_result_is_an_error
  (api : Broker.composioAPI) (this : Broker.ToolManager)
  (call : Broker.functionCall) (app : string) (r : value) :
  match_app_prefix (Broker.name call) = Some app ->
  Broker.isConnected api app = true ->
  Broker.executeTool api (Broker.name call) (Broker.args call) = Return r ->
  nullish r = true ->
  exists message,
    Broker.handleToolCall api this call
    = Return (VObject [("output", VNull); ("id", Broker.id call);
                       ("error", VString message)]).
Proof.
  intros Hm Hc Hr Hn.
  rewrite (handleToolCall_connector api this call app Hm Hc), Hr. simpl.
  rewrite (get_prop_nullish r "output" Hn). simpl. by eexists.
Qed.

Lemma X5_witness :
  exists message,
    Broker.handleToolCall Fixtures.gmail_listing Fixtures.one_tool Fixtures.gmail_call
    = Return (VObject [("output", VNull); ("id", VString "call-3");
                       ("error", VString message)]).
Proof.
  apply (X5_connector_nullish_result_is_an_error Fixtures.gmail_listing
           Fixtures.one_tool Fixtures.gmail_call "gmail" VUndefined); reflexivity.
Defined.

(** X6: when a local tool's [execute] throws undefined or null, the
    [catch] block's read of [error.message] throws in turn, and
    [handleToolCall] rejects with that TypeError instead of returning an
    envelope. *)
Theorem X6_local_nullish_throw_escapes
  (api : Broker.composioAPI) (this : Broker.ToolManager)
  (call : Broker.functionCall) (tool : Broker.tool) (e : value) :
  (forall app, match_app_prefix (Broker.name call) = Some app ->
               Broker.isConnected api app = false) ->
  map_get (Broker.name call) (Broker.tools this) = Some tool ->
  Broker.execute tool (Broker.args call) = Throw e ->
  nullish e = true ->
  Broker.handleToolCall api this call = Throw (type_error_read e "message").
Proof.
  intros Hoff Ht He Hn.
  rewrite (handleToolCall_local api this call Hoff), Ht, He. simpl.
  unfold Broker.catch_envelope. by rewrite (get_prop_nullish e "message" Hn).
Qed.

Lemma X6_witness :
  Broker.handleToolCall Fixtures.offline Fixtures.null_thrower Fixtures.search_call
  = Throw (VError "TypeError" "Cannot read properties of null (reading 'message')").
Proof.
  apply (X6_local_nullish_throw_escapes Fixtures.offline Fixtures.null_thrower
           Fixtures.search_call Fixtures.throws_null VNull); reflexivity.
Defined.

(* ===================================================================== *)
(** ** Further properties of the connector tool source *)
(* ===================================================================== *)

Section ConnectorLaws.

Import ConnectorTools.

(** [getTools] in terms of what it reads: the connection table, the cache
    entry of its key, and the next answer of the backend. *)
Lemma getTools_spec (app : string) (actions tags : list string) (s : state) :
  (getTools app actions tags s).1
  = (if negb (isConnected s.2 app) then
       Throw (new_Error ("Not connected to " +:+ app +:+ ". Please connect first."))
     else if truthy (dict_get (toolCache s.1) (cacheKey app actions tags))
     then Return (dict_get (toolCache s.1) (cacheKey app actions tags))
     else backend s.2 (length (calls s.2)) app actions tags)
  /\ toolCache (getTools app actions tags s).2.1
     = (if negb (isConnected s.2 app) then toolCache s.1
        else if truthy (dict_get (toolCache s.1) (cacheKey app actions tags))
        then toolCache s.1
        else match backend s.2 (length (calls s.2)) app actions tags with
             | Return tools => <[cacheKey app actions tags := tools]> (toolCache s.1)
             | Throw _ => toolCache s.1
             end)
  /\ calls (getTools app actions tags s).2.2
     = (if negb (isConnected s.2 app) then calls s.2
        else if truthy (dict_get (toolCache s.1) (cacheKey app actions tags))
        then calls s.2
        else calls s.2 ++ [(app, actions, tags)])
  /\ isConnected (getTools app actions tags s).2.2 = isConnected s.2
  /\ backend (getTools app actions tags s).2.2 = backend s.2.
Proof.
  destruct (isConnected s.2 app) eqn:Hc; simpl.
  - destruct (truthy (dict_get (toolCache s.1) (cacheKey app actions tags)))
      eqn:Ht.
    + destruct (getTools_served app actions tags s Hc Ht)
        as (s' & -> & (Hc' & Hb' & Hl') & Hk'). done.
    + destruct (getTools_miss app actions tags s Hc Ht)
        as (s' & -> & Hc' & Hb' & Hl' & Hk'). done.
  - destruct (getTools_not_connected app actions tags s Hc)
      as (s' & -> & (Hc' & Hb' & Hl') & Hk'). done.
Qed.

End ConnectorLaws.

(** X7: [getTools] never removes a cache entry and never touches the
    entry of a key other than its own. *)
Theorem X7_getTools_touches_its_own_key_only
  (s : ConnectorTools.state) (app : string) (actions tags : list string)
  (k : string) :
  k <> ConnectorTools.cacheKey app actions tags ->
  ConnectorTools.toolCache (ConnectorTools.getTools app actions tags s).2.1 !! k
  = ConnectorTools.toolCache s.1 !! k
  /\ (forall k',
        is_Some (ConnectorTools.toolCache s.1 !! k') ->
        is_Some (ConnectorTools.toolCache
                   (ConnectorTools.getTools app actions tags s).2.1 !! k')).
Proof.
  intros Hk.
  destruct (getTools_spec app actions tags s) as (_ & Hcache & _).
  rewrite Hcache.
  destruct (negb (ConnectorTools.isConnected s.2 app)); [done|].
  destruct (truthy _); [done|].
  destruct (ConnectorTools.backend s.2 _ app actions tags) as [v|e]; [|done].
  split; [by rewrite lookup_insert_ne|].
  intros k' Hsome.
  destruct (decide (ConnectorTools.cacheKey app actions tags = k')) as [<-|Hne].
  - rewrite lookup_insert_eq. by eexists.
  - by rewrite lookup_insert_ne.
Qed.

Lemma X7_witness :
  ConnectorTools.toolCache
    (ConnectorTools.getTools "gmail" [] [] Fixtures.stale).2.1 !! "slack__"
  = Some (VArray [VString "slack"]).
Proof.
  destruct (X7_getTools_touches_its_own_key_only Fixtures.stale "gmail" [] []
              "slack__") as [-> _]; [discriminate|].
  apply lookup_singleton_eq.
Defined.

(** X8: when the cache object serves nothing under the key (no truthy
    entry of its own, no inherited member), an answer of the listing that
    is an error or a falsy value is never served from the cache: the call
    returns or rethrows it, and the next identical call of a connected app
    goes to the backend again.  An error leaves the cache as it was. *)
Theorem X8_failed_or_falsy_answer_is_fetched_again
  (s : ConnectorTools.state) (app : string) (actions tags : list string) :
  ConnectorTools.isConnected s.2 app = true ->
  truthy (dict_get (ConnectorTools.toolCache s.1)
            (ConnectorTools.cacheKey app actions tags)) = false ->
  (forall v, ConnectorTools.backend s.2 (length (ConnectorTools.calls s.2))
               app actions tags = Return v -> truthy v = false) ->
  (ConnectorTools.getTools app actions tags s).1
    = ConnectorTools.backend s.2 (length (ConnectorTools.calls s.2)) app actions tags
  /\ (ConnectorTools.getTools app actions tags
        (ConnectorTools.getTools app actions tags s).2).1
     = ConnectorTools.backend s.2 (S (length (ConnectorTools.calls s.2)))
         app actions tags
  /\ ConnectorTools.calls
       (ConnectorTools.getTools app actions tags
          (ConnectorTools.getTools app actions tags s).2).2.2
     = ConnectorTools.calls s.2 ++ [(app, actions, tags); (app, actions, tags)]
  /\ (forall e, ConnectorTools.backend s.2 (length (ConnectorTools.calls s.2))
                  app actions tags = Throw e ->
      ConnectorTools.toolCache (ConnectorTools.getTools app actions tags s).2.1
      = ConnectorTools.toolCache s.1).
Proof.
  intros Hc Hmiss Hbad.
  destruct (getTools_spec app actions tags s) as (Hr & Hk & Hl & Hc1 & Hb1).
  rewrite Hc, Hmiss in Hr, Hk, Hl. simpl in Hr, Hk, Hl.
  set (s1 := (ConnectorTools.getTools app actions tags s).2) in *.
  assert (Hmiss1 : truthy (dict_get (ConnectorTools.toolCache s1.1)
                              (ConnectorTools.cacheKey app actions tags)) = false).
  { rewrite Hk.
    destruct (ConnectorTools.backend s.2 _ app actions tags) as [v|e] eqn:Hans;
      [|done].
    rewrite dict_get_insert_eq. by apply Hbad. }
  destruct (getTools_spec app actions tags s1) as (Hr2 & _ & Hl2 & _).
  rewrite Hc1, Hc, Hmiss1 in Hr2, Hl2. simpl in Hr2, Hl2.
  split; [done|]. split; [|split].
  - rewrite Hr2, Hb1, Hl, length_app. simpl. by rewrite Nat.add_1_r.
  - rewrite Hl2, Hl, <- app_assoc. done.
  - intros e He. rewrite Hk. by rewrite He.
Qed.

Lemma X8_witness :
  (ConnectorTools.getTools "gmail" [] []
     (ConnectorTools.constructor, Fixtures.flaky)).1
  = Throw (VError "Error" "502 Bad Gateway")
  /\ (ConnectorTools.getTools "gmail" [] []
        (ConnectorTools.getTools "gmail" [] []
           (ConnectorTools.constructor, Fixtures.flaky)).2).1
     = Return (VArray [VString "gmail"]).
Proof.
  destruct (X8_failed_or_falsy_answer_is_fetched_again
              (ConnectorTools.constructor, Fixtures.flaky) "gmail" [] [])
    as (H1 & H2 & _); [reflexivity | reflexivity | discriminate |].
  split; [exact H1 | exact H2].
Defined.

(** X9: what [getTools] returns, stores and asks of the backend does not
    depend on the [initialized] flags nor on whether the integration's own
    initialization succeeds: a failed initialization is swallowed and the
    call goes on. *)
Theorem X9_getTools_ignores_initialization
  (s s' : ConnectorTools.state) (app : string) (actions tags : list string) :
  ConnectorTools.toolCache s'.1 = ConnectorTools.toolCache s.1 ->
  ConnectorTools.isConnected s'.2 = ConnectorTools.isConnected s.2 ->
  ConnectorTools.backend s'.2 = ConnectorTools.backend s.2 ->
  ConnectorTools.calls s'.2 = ConnectorTools.calls s.2 ->
  (ConnectorTools.getTools app actions tags s').1
    = (ConnectorTools.getTools app actions tags s).1
  /\ ConnectorTools.toolCache (ConnectorTools.getTools app actions tags s').2.1
     = ConnectorTools.toolCache (ConnectorTools.getTools app actions tags s).2.1
  /\ ConnectorTools.calls (ConnectorTools.getTools app actions tags s').2.2
     = ConnectorTools.calls (ConnectorTools.getTools app actions tags s).2.2.
Proof.
  intros Hk Hc Hb Hl.
  destruct (getTools_spec app actions tags s) as (-> & -> & -> & _).
  destruct (getTools_spec app actions tags s') as (-> & -> & -> & _).
  by rewrite Hk, Hc, Hb, Hl.
Qed.

Lemma X9_witness :
  (ConnectorTools.getTools "gmail" [] []
     (ConnectorTools.constructor, Fixtures.failing_init)).1
  = (ConnectorTools.getTools "gmail" [] [] Fixtures.fresh).1.
Proof.
  apply (X9_getTools_ignores_initialization Fixtures.fresh
           (ConnectorTools.constructor, Fixtures.failing_init) "gmail" [] []);
    reflexivity.
Defined.

Section ToolsForApps.

Import ConnectorApps.

Lemma getToolsForApps_combined
  (connected : string -> bool) (g : string -> completion value) (apps : list string) :
  getToolsForApps connected g apps
  = combined (map (fun appName => if connected appName then g appName
                                  else Return (VArray [])) apps).
Proof.
  unfold getToolsForApps, combined.
  by destruct (MCP.Promise_all _).
Qed.

Lemma combined_skip (ps : list (completion value)) :
  combined (Return (VArray []) :: ps) = combined ps.
Proof. unfold combined. simpl. by destruct (MCP.Promise_all ps). Qed.

Lemma combined_cons (p : completion value) (ps qs : list (completion value)) :
  combined ps = combined qs -> combined (p :: ps) = combined (p :: qs).
Proof.
  unfold combined. simpl. destruct p as [x|e]; simpl; [|done].
  destruct (MCP.Promise_all ps) as [xs|e], (MCP.Promise_all qs) as [ys|e'];
    simpl; try done.
  intros [= H]. unfold flat in *. simpl. by rewrite H.
Qed.

End ToolsForApps.

(** X10: [getToolsForApps] asks only for the tools of connected apps and
    an app that is not connected contributes neither entries nor an error:
    the result is the one for the connected apps of the list alone, and the
    outcome [getTools] would have for the other apps does not matter. *)
Theorem X10_getToolsForApps_skips_unconnected
  (connected : string -> bool) (g g' : string -> completion value)
  (apps : list string) :
  (forall app, connected app = true -> g' app = g app) ->
  ConnectorApps.getToolsForApps connected g' apps
  = ConnectorApps.getToolsForApps connected g (List.filter connected apps).
Proof.
  intros Hsame. rewrite !getToolsForApps_combined.
  induction apps as [|app apps IH]; [done|]. simpl.
  destruct (connected app) eqn:Hc; simpl.
  - rewrite Hc, (Hsame app Hc). by apply combined_cons.
  - by rewrite combined_skip.
Qed.

Lemma X10_witness :
  ConnectorApps.getToolsForApps Fixtures.slack_off Fixtures.fetch_or_fail
    ["gmail"; "slack"; "github"]
  = ConnectorApps.getToolsForApps Fixtures.slack_off Fixtures.fetch_tools
      ["gmail"; "github"].
Proof.
  apply (X10_getToolsForApps_skips_unconnected Fixtures.slack_off
           Fixtures.fetch_tools Fixtures.fetch_or_fail ["gmail"; "slack"; "github"]).
  intros app Happ. unfold Fixtures.fetch_or_fail.
  unfold Fixtures.slack_off in Happ. by destruct (String.eqb app "slack").
Defined.

(** X11: when [getTools] resolves to an array for every connected app of
    the list, [getToolsForApps] resolves to the concatenation of those
    arrays in the order of the list, app by app. *)
Theorem X11_getToolsForApps_concatenates
  (connected : string -> bool) (g : string -> completion value)
  (tools_of : string -> list value) (apps : list string) :
  (forall app, app ∈ apps -> connected app = true ->
               g app = Return (VArray (tools_of app))) ->
  ConnectorApps.getToolsForApps connected g apps
  = Return (VArray (flat_map tools_of (List.filter connected apps))).
Proof.
  intros Hok. rewrite getToolsForApps_combined.
  induction apps as [|app apps IH]; [done|]. simpl.
  assert (IH' : ConnectorApps.combined
            (map (fun appName => if connected appName then g appName
                                 else Return (VArray [])) apps)
          = Return (VArray (flat_map tools_of (List.filter connected apps)))).
  { apply IH. intros a Ha. apply Hok. apply elem_of_cons. by right. }
  destruct (connected app) eqn:Hc.
  - rewrite (Hok app); [|apply elem_of_cons; by left|done].
    unfold ConnectorApps.combined in *. simpl.
    destruct (MCP.Promise_all _) as [xs|e]; simpl in *; [|done].
    injection IH' as IH'. unfold flat in *. simpl. by rewrite IH'.
  - by rewrite combined_skip.
Qed.

Lemma X11_witness :
  ConnectorApps.getToolsForApps Fixtures.slack_off Fixtures.fetch_or_fail
    ["gmail"; "slack"; "github"]
  = Return (VArray [VString "gmail_list"; VString "gmail_send";
                    VString "github_list"; VString "github_send"]).
Proof.
  apply (X11_getToolsForApps_concatenates Fixtures.slack_off Fixtures.fetch_or_fail
           Fixtures.tools_of ["gmail"; "slack"; "github"]).
  intros app _ Happ. unfold Fixtures.fetch_or_fail.
  unfold Fixtures.slack_off in Happ. by destruct (String.eqb app "slack").
Defined.

(* ===================================================================== *)
(** ** Further properties of the MCP client *)
(* ===================================================================== *)

Section MCPLaws.

Import MCP.

Variable JSON_parse : string -> value + string.
Variable this : MCPClient.

Lemma handleToolCall_rejects (call : toolCall) :
  handler_throws_nullish JSON_parse this call = true ->
  exists e, handleToolCall JSON_parse this call = Throw e.
Proof.
  unfold handler_throws_nullish, handleToolCall.
  destruct (map_get (name call) (tools this)) as [tool|]; [|done].
  destruct (parseArgs JSON_parse (arguments call)) as [a|e]; [|done]. simpl.
  destruct (handler tool a) as [v|e]; simpl; [done|].
  intros He. rewrite (get_prop_nullish e "message" He). by eexists.
Qed.

Lemma Promise_all_rejects {A B} (f : A -> completion B) (l : list A) (x : A) :
  x ∈ l -> (exists e, f x = Throw e) ->
  exists e, MCP.Promise_all (map f l) = Throw e.
Proof.
  intros Hin [e He]. induction l as [|y l IH]; [by apply elem_of_nil in Hin|].
  simpl. apply elem_of_cons in Hin as [<-|Hin].
  - rewrite He. by eexists.
  - destruct (f y) as [b|e']; simpl; [|by eexists].
    destruct (IH Hin) as [e' ->]. by eexists.
Qed.

Lemma map_get_unique {V} (m : list (string * V)) (k : string) (v v' : V) :
  NoDup m.*1 -> (k, v) ∈ m -> (k, v') ∈ m -> v = v'.
Proof.
  intros Hnd H1 H2.
  pose proof (map_get_elem k v m Hnd H1) as E1.
  pose proof (map_get_elem k v' m Hnd H2) as E2. congruence.
Qed.

End MCPLaws.

(** X12: the MCP client's [registerTool] stores the entry before it talks
    to the adapter, and a later registration of a name replaces the earlier
    one: whatever the adapter answers (also when it rejects), the handler
    found and run under the name is the new one and the other names are
    untouched; the adapter's answer or error is what the call settles
    to. *)
Theorem X12_mcp_registerTool_last_registration_wins
  (adapter_registerTool : value -> completion value) (n k : string)
  (d sc : value) (h : value -> completion value) (this : MCP.MCPClient) :
  k <> n ->
  (MCP.registerTool adapter_registerTool n d h sc this).1
    = adapter_registerTool (MCP.toolDefinition n d sc)
  /\ map_get n (MCP.tools (MCP.registerTool adapter_registerTool n d h sc this).2)
     = Some (MCP.Build_registeredTool d h sc)
  /\ map_get k (MCP.tools (MCP.registerTool adapter_registerTool n d h sc this).2)
     = map_get k (MCP.tools this)
  /\ (forall args,
        MCP.executeTool n args (MCP.registerTool adapter_registerTool n d h sc this).2
        = h args).
Proof.
  intros Hk. unfold MCP.registerTool. simpl. split; [|split; [|split]].
  - by destruct (adapter_registerTool _).
  - apply map_get_set_eq.
  - by apply map_get_set_ne.
  - intros args. unfold MCP.executeTool. simpl. by rewrite map_get_set_eq.
Qed.

Lemma X12_witness :
  (MCP.registerTool Fixtures.rejecting "echo" (VString "Fails now")
     (MCP.handler Fixtures.broken) (VObject []) Fixtures.client).1
  = Throw (VError "Error" "Failed to send message: 503 Service Unavailable")
  /\ MCP.executeTool "echo" (VObject [])
       (MCP.registerTool Fixtures.rejecting "echo" (VString "Fails now")
          (MCP.handler Fixtures.broken) (VObject []) Fixtures.client).2
     = Throw (VError "Error" "boom").
Proof.
  destruct (X12_mcp_registerTool_last_registration_wins Fixtures.rejecting
              "echo" "broken" (VString "Fails now") (VObject [])
              (MCP.handler Fixtures.broken) Fixtures.client)
    as (H1 & _ & _ & H2); [discriminate|].
  split; [exact H1 | exact (H2 (VObject []))].
Defined.

(** X13: after a registration, [getRegisteredTools] lists the name exactly
    once, with the description and schema just given; the list grows by
    one entry when the name is new and keeps its length when it was
    known. *)
Theorem X13_getRegisteredTools_lists_latest_once
  (adapter_registerTool : value -> completion value) (n : string)
  (d sc : value) (h : value -> completion value) (this : MCP.MCPClient) :
  NoDup (MCP.tools this).*1 ->
  MCP.toolDefinition n d sc
    ∈ MCP.getRegisteredTools (MCP.registerTool adapter_registerTool n d h sc this).2
  /\ (forall d' sc',
        MCP.toolDefinition n d' sc'
          ∈ MCP.getRegisteredTools
              (MCP.registerTool adapter_registerTool n d h sc this).2 ->
        d' = d /\ sc' = sc)
  /\ length (MCP.getRegisteredTools
               (MCP.registerTool adapter_registerTool n d h sc this).2)
     = (if map_has n (MCP.tools this) then length (MCP.tools this)
        else S (length (MCP.tools this)))
  /\ NoDup (MCP.tools (MCP.registerTool adapter_registerTool n d h sc this).2).*1.
Proof.
  intros Hnd. unfold MCP.registerTool, MCP.getRegisteredTools. simpl.
  set (entry := MCP.Build_registeredTool d h sc).
  assert (Hnd' : NoDup (map_set n entry (MCP.tools this)).*1)
    by by apply map_set_NoDup.
  assert (Hin : (n, entry) ∈ map_set n entry (MCP.tools this))
    by apply map_get_Some_elem, map_get_set_eq.
  split; [|split; [|split]].
  - apply list_elem_of_fmap. by exists (n, entry).
  - intros d' sc' [[n' e'] [Heq Hin']]%list_elem_of_fmap.
    unfold MCP.toolDefinition in Heq. simpl in Heq.
    injection Heq as -> -> ->.
    by rewrite (map_get_unique _ n' e' entry Hnd' Hin' Hin).
  - rewrite length_map.
    rewrite <- (length_fmap fst (map_set n entry (MCP.tools this))), map_set_keys.
    destruct (map_has n (MCP.tools this)).
    + by rewrite length_fmap.
    + rewrite length_app, length_fmap. simpl. lia.
  - exact Hnd'.
Qed.

Lemma X13_witness :
  length (MCP.getRegisteredTools
            (MCP.registerTool Fixtures.accepting "echo" (VString "Echo, again")
               (MCP.handler Fixtures.echo) (VObject []) Fixtures.client).2)
  = 2%nat.
Proof.
  apply (X13_getRegisteredTools_lists_latest_once Fixtures.accepting "echo"
           (VString "Echo, again") (VObject []) (MCP.handler Fixtures.echo)
           Fixtures.client).
  apply (bool_decide_unpack _). by vm_compute.
Defined.

(** X14: [handleToolCall] agrees with [executeTool] on arguments that are
    not a string: a missing tool is the error entry with the very message
    [executeTool] throws, a value returned is wrapped in the success entry,
    and a value thrown (other than undefined or null) gives the error entry
    with its message, or, when the message is falsy, with its string form;
    the string form is the one given here for a thrown value that is
    [printable]: its numbers are integers of at most 2^53 in absolute
    value and its objects have no [toString] of their own. *)
Theorem X14_handleToolCall_wraps_executeTool
  (JSON_parse : string -> value + string) (this : MCP.MCPClient)
  (call : MCP.toolCall) :
  (forall s, MCP.arguments call <> VString s) ->
  (map_get (MCP.name call) (MCP.tools this) = None ->
   MCP.executeTool (MCP.name call) (MCP.arguments call) this
     = Throw (new_Error ("Tool not found: " +:+ MCP.name call))
   /\ MCP.handleToolCall JSON_parse this call
      = Return (MCP.error_result (MCP.id call) (MCP.name call)
                  (VString ("Tool not found: " +:+ MCP.name call))))
  /\ (is_Some (map_get (MCP.name call) (MCP.tools this)) ->
      (forall v,
         MCP.executeTool (MCP.name call) (MCP.arguments call) this = Return v ->
         MCP.handleToolCall JSON_parse this call
         = Return (MCP.success_result (MCP.id call) (MCP.name call) v))
      /\ (forall e,
            MCP.executeTool (MCP.name call) (MCP.arguments call) this = Throw e ->
            nullish e = false ->
            printable e = true ->
            exists message,
              get_prop e "message" = Return message
              /\ MCP.handleToolCall JSON_parse this call
                 = Return (MCP.error_result (MCP.id call) (MCP.name call)
                             (logical_or message (VString (to_String e)))))).
Proof.
  intros Hobj.
  assert (Hargs : MCP.parseArgs JSON_parse (MCP.arguments call)
                  = Return (MCP.arguments call)).
  { unfold MCP.parseArgs. destruct (MCP.arguments call); try done.
    by destruct (Hobj s). }
  unfold MCP.executeTool, MCP.handleToolCall. split.
  - intros ->. done.
  - intros [tool ->]. rewrite Hargs. simpl. split.
    + intros v ->. done.
    + intros e -> He _. simpl.
      destruct (get_prop_defined e "message" He) as [m Hm].
      exists m. by rewrite Hm.
Qed.

Lemma X14_witness :
  MCP.handleToolCall Fixtures.sample_JSON_parse Fixtures.client Fixtures.broken_call
  = Return (VObject [("toolCallId", VString "t2"); ("name", VString "broken");
                     ("status", VString "error"); ("error", VString "boom")]).
Proof.
  destruct (X14_handleToolCall_wraps_executeTool Fixtures.sample_JSON_parse
              Fixtures.client Fixtures.broken_call) as [_ Hreg]; [discriminate|].
  destruct Hreg as [_ Hthrow]; [by eexists|].
  destruct (Hthrow (VError "Error" "boom") eq_refl eq_refl eq_refl)
    as (m & [= <-] & ->).
  reflexivity.
Defined.

(** X15: arguments given as a JSON string are handled exactly like the
    decoded arguments given as an object, provided the decoded value is not
    itself a string (which would be decoded again). *)
Theorem X15_string_arguments_equal_decoded_arguments
  (JSON_parse : string -> value + string) (this : MCP.MCPClient)
  (n : string) (i : value) (s : string) (v : value) :
  JSON_parse s = inl v ->
  (forall s', v <> VString s') ->
  MCP.handleToolCall JSON_parse this
    {| MCP.name := n; MCP.id := i; MCP.arguments := VString s |}
  = MCP.handleToolCall JSON_parse this
      {| MCP.name := n; MCP.id := i; MCP.arguments := v |}.
Proof.
  intros Hparse Hv.
  assert (Hs : MCP.parseArgs JSON_parse (VString s) = Return v).
  { unfold MCP.parseArgs, MCP.parse. by rewrite Hparse. }
  assert (Hargs : MCP.parseArgs JSON_parse v = Return v).
  { unfold MCP.parseArgs. destruct v; try done. by destruct (Hv s0). }
  unfold MCP.handleToolCall. cbn [MCP.name MCP.id MCP.arguments].
  by rewrite Hs, Hargs.
Qed.

Lemma X15_witness :
  MCP.handleToolCall Fixtures.sample_JSON_parse Fixtures.client Fixtures.echo_call
  = MCP.handleToolCall Fixtures.sample_JSON_parse Fixtures.client
      Fixtures.echo_object_call.
Proof.
  apply (X15_string_arguments_equal_decoded_arguments Fixtures.sample_JSON_parse
           Fixtures.client "echo" (VString "t1") "{}" (VObject []));
    [reflexivity | discriminate].
Defined.

(** X16: the listener sends at most one message for an event, and for a
    batch of tool calls the reply is missing exactly when the handler of
    one of the calls throws undefined or null. *)
Theorem X16_reply_lost_only_by_nullish_throw
  (JSON_parse : string -> value + string) (this : MCP.MCPClient)
  (event : MCP.messageEvent) (calls : list MCP.toolCall) :
  (length (MCP.onMessage JSON_parse this event) <= 1)%nat
  /\ (MCP.onMessage JSON_parse this (MCP.batch calls) = []
      <-> exists call, call ∈ calls
                       /\ MCP.handler_throws_nullish JSON_parse this call = true).
Proof.
  split.
  - unfold MCP.onMessage. destruct (MCP.content event) as [c|]; [|simpl; lia].
    destruct (MCP.toolCalls c) as [cs|]; [|simpl; lia].
    destruct (MCP.Promise_all _); simpl; lia.
  - split.
    + intros Hnone.
      destruct (decide (Forall (fun c => MCP.handler_throws_nullish JSON_parse this c
                                         = false) calls)) as [Hall|Hex].
      * exfalso.
        destruct (Promise_all_map (MCP.handleToolCall JSON_parse this) calls)
          as (rs & Hrs & _).
        { intros c Hc. rewrite Forall_forall in Hall.
          destruct (handleToolCall_settles JSON_parse this c (Hall c Hc))
            as (r & Hr & _). by exists r. }
        by rewrite (onMessage_batch JSON_parse this calls rs Hrs) in Hnone.
      * apply not_Forall_Exists in Hex; [|apply _].
        apply Exists_exists in Hex as (c & Hc & Hnot).
        exists c. split; [done|]. simpl in Hnot.
        destruct (MCP.handler_throws_nullish JSON_parse this c); [done|].
        by destruct Hnot.
    + intros (c & Hc & Hthrow).
      destruct (Promise_all_rejects (MCP.handleToolCall JSON_parse this) calls c Hc)
        as [e He].
      { by apply handleToolCall_rejects. }
      unfold MCP.onMessage, MCP.batch. simpl. by rewrite He.
Qed.

(* ===================================================================== *)
(** ** Further properties of the memory bridge *)
(* ===================================================================== *)

Section ObjectLaws.

Implicit Types (o : list (string * value)) (k : string) (v : value).

Lemma obj_has_keys k o : obj_has k o = true <-> k ∈ o.*1.
Proof.
  induction o as [|[k' v'] o IH]; simpl.
  - split; [done | intros H; by apply elem_of_nil in H].
  - rewrite elem_of_cons, orb_true_iff, IH.
    destruct (String.eqb_spec k k'); intuition congruence.
Qed.

Lemma obj_get_set k k0 v o :
  obj_get k (obj_set k0 v o) = if String.eqb k k0 then v else obj_get k o.
Proof.
  induction o as [|[k' v'] o IH]; simpl; [done|].
  destruct (String.eqb_spec k0 k') as [->|Hne]; simpl.
  - by destruct (String.eqb k k').
  - destruct (String.eqb_spec k k') as [->|].
    + by destruct (String.eqb_spec k' k0) as [->|].
    + exact IH.
Qed.

Lemma obj_has_set k k0 v o :
  obj_has k (obj_set k0 v o) = String.eqb k k0 || obj_has k o.
Proof.
  induction o as [|[k' v'] o IH]; simpl; [by rewrite orb_false_r|].
  destruct (String.eqb_spec k0 k') as [->|Hne]; simpl.
  - by destruct (String.eqb k k'), (obj_has k o).
  - rewrite IH. by destruct (String.eqb k k0), (String.eqb k k').
Qed.

Lemma obj_has_spread k (src : list (string * value)) o :
  obj_has k (obj_spread src o) = obj_has k src || obj_has k o.
Proof.
  revert o. induction src as [|[k0 v0] src IH]; intros o; [done|].
  unfold obj_spread in *. simpl. rewrite IH, obj_has_set.
  by destruct (String.eqb k k0), (obj_has k src), (obj_has k o).
Qed.

(** A spread overrides exactly the keys of its source. *)
Lemma obj_get_spread k (src : list (string * value)) o :
  NoDup src.*1 ->
  obj_get k (obj_spread src o)
  = if obj_has k src then obj_get k src else obj_get k o.
Proof.
  revert o. induction src as [|[k0 v0] src IH]; intros o Hnd; [done|].
  apply NoDup_cons in Hnd as [Hk0 Hnd].
  unfold obj_spread in *. simpl. rewrite (IH _ Hnd), obj_get_set.
  destruct (String.eqb_spec k k0) as [->|Hne]; simpl; [|done].
  destruct (obj_has k0 src) eqn:Hhas; [|done].
  by apply obj_has_keys in Hhas.
Qed.

Lemma obj_spread_NoDup (src : list (string * value)) o :
  NoDup o.*1 -> NoDup (obj_spread src o).*1.
Proof.
  revert o. induction src as [|[k0 v0] src IH]; intros o Hnd; [done|].
  unfold obj_spread in *. simpl. apply IH. by apply obj_set_NoDup.
Qed.

End ObjectLaws.

(** X17: for an options object (its keys are distinct), every field of the
    retrieval options sent is the caller's value when the caller gave the
    field, also a falsy one such as [limit: 0], and the default (or
    nothing, for a field without default) otherwise. *)
Theorem X17_retrieval_option_fields
  (options : list (string * value)) (k : string) :
  NoDup options.*1 ->
  obj_get k (Memory.retrievalOptions options)
  = if obj_has k options then obj_get k options
    else obj_get k Memory.default_options.
Proof.
  intros Hnd. rewrite retrievalOptions_merge.
  unfold Memory.merged_under_overrides. by apply obj_get_spread.
Qed.

Lemma X17_witness :
  obj_get "limit" (Memory.retrievalOptions [("limit", VNumber 0); ("tag", VString "x")])
  = VNumber 0.
Proof.
  rewrite (X17_retrieval_option_fields [("limit", VNumber 0); ("tag", VString "x")]
             "limit"); [reflexivity|].
  apply (bool_decide_unpack _). by vm_compute.
Defined.

(** X18: [getUserPreferences] of a single key sends what it sends for the
    one-element array of that key: a retrieve message for the preference
    memories with exactly the four default options. *)
Theorem X18_getUserPreferences_wraps_single_key
  (sendMessage : value -> completion value) (key : value) :
  (forall items, key <> VArray items) ->
  Memory.getUserPreferences sendMessage key
    = Memory.getUserPreferences sendMessage (VArray [key])
  /\ Memory.getUserPreferences sendMessage key
     = sendMessage
         (VObject
            [("type", VString "memory"); ("action", VString "retrieve");
             ("query", VObject [("memoryType", VString "preference");
                                ("keys", VArray [key])]);
             ("options", VObject [("limit", VNumber 10); ("offset", VNumber 0);
                                  ("sortBy", VString "timestamp");
                                  ("sortDirection", VString "desc")])]).
Proof.
  intros Hkey.
  assert (Hwrap : match key with VArray _ => key | _ => VArray [key] end
                  = VArray [key]).
  { destruct key; try done. by destruct (Hkey items). }
  unfold Memory.getUserPreferences, Memory.retrieveMemories, Memory.retrieve_message.
  rewrite Hwrap. simpl. split; [done|]. by destruct (sendMessage _).
Qed.

Lemma X18_witness :
  Memory.getUserPreferences (fun m => Return m) (VString "name")
  = Memory.getUserPreferences (fun m => Return m) (VArray [VString "name"]).
Proof.
  apply (X18_getUserPreferences_wraps_single_key (fun m => Return m) (VString "name")).
  discriminate.
Defined.

(* ===================================================================== *)
(** ** Properties of the adapter *)
(* ===================================================================== *)

Section AdapterLaws.

Import Adapter.

Lemma payload_NoDup (message metadata : value) :
  NoDup (payload message metadata).*1.
Proof.
  unfold payload.
  destruct message;
    try (apply obj_set_NoDup, obj_spread_NoDup; simpl; apply NoDup_nil_2).
  simpl. apply (bool_decide_unpack _). by vm_compute.
Qed.

Lemma payload_metadata (message metadata : value) :
  obj_has "metadata" (payload message metadata) = true
  /\ obj_get "metadata" (payload message metadata) = metadata_or_default metadata.
Proof.
  unfold payload.
  destruct message; try (by rewrite obj_has_set, obj_get_set). done.
Qed.

(** With a context open, [sendMessage] goes straight to the request. *)
Lemma sendMessage_open (fetch : request -> completion response)
  (message metadata : value) (this : SecondMeAdapter) :
  truthy (contextId this) = true ->
  sendMessage fetch message metadata this
  = match (response <- fetch (message_request this message metadata) ;;
           if negb (ok response) then
             Throw (new_Error ("Failed to send message: " +:+ status_line response))
           else json response) with
    | Return data =>
        (Return data, this,
         [Fetch (message_request this message metadata);
          Emit "message" (VObject [("direction", VString "response");
                                   ("content", data)])])
    | Throw error =>
        (Throw error, this,
         [Fetch (message_request this message metadata);
          Emit "error" (VObject [("error", error);
                                 ("message", VString "Failed to send message")])])
    end.
Proof. intros Hctx. unfold sendMessage. rewrite Hctx. simpl. done. Qed.

End AdapterLaws.

(** X19: the body posted by [sendMessage] always carries under [metadata]
    the [metadata] argument, or an empty object when that argument is left
    out or undefined, whatever the message holds under that key; it
    carries the adapter's context id under [contextId] unless the message
    has a field of that name, which then takes its place. *)
Theorem X19_message_body_fields
  (message metadata : value) (this : Adapter.SecondMeAdapter) :
  exists fields,
    Adapter.body (Adapter.message_request this message metadata) = VObject fields
    /\ obj_get "metadata" fields
       = match metadata with
         | VUndefined => VObject []
         | _ => metadata
         end
    /\ obj_get "contextId" fields
       = if obj_has "contextId" (Adapter.payload message metadata)
         then obj_get "contextId" (Adapter.payload message metadata)
         else Adapter.contextId this.
Proof.
  eexists. split; [reflexivity|].
  destruct (payload_metadata message metadata) as [Hhas Hget].
  rewrite !obj_get_spread by apply payload_NoDup. by rewrite Hhas, Hget.
Qed.

(** X20: an adapter with an open context makes exactly one request per
    [sendMessage] and emits exactly one event: [message] with the decoded
    answer when the call returns it, [error] with the error when the call
    throws; its state is unchanged. *)
Theorem X20_sendMessage_one_request_one_event
  (fetch : Adapter.request -> completion Adapter.response)
  (message metadata : value) (this : Adapter.SecondMeAdapter) :
  truthy (Adapter.contextId this) = true ->
  (Adapter.sendMessage fetch message metadata this).1.2 = this
  /\ match (Adapter.sendMessage fetch message metadata this).1.1 with
     | Return data =>
         (Adapter.sendMessage fetch message metadata this).2
         = [Adapter.Fetch (Adapter.message_request this message metadata);
            Adapter.Emit "message"
              (VObject [("direction", VString "response"); ("content", data)])]
     | Throw error =>
         (Adapter.sendMessage fetch message metadata this).2
         = [Adapter.Fetch (Adapter.message_request this message metadata);
            Adapter.Emit "error"
              (VObject [("error", error);
                        ("message", VString "Failed to send message")])]
     end.
Proof.
  intros Hctx. rewrite (sendMessage_open fetch message metadata this Hctx).
  by destruct (_ <- fetch _ ;; _).
Qed.

Lemma X20_witness :
  (Adapter.sendMessage Fixtures.backend_down Fixtures.memory_message (VObject [])
     Fixtures.open_adapter).2
  = [Adapter.Fetch
       (Adapter.message_request Fixtures.open_adapter Fixtures.memory_message
          (VObject []));
     Adapter.Emit "error"
       (VObject [("error", VError "TypeError" "Failed to fetch");
                 ("message", VString "Failed to send message")])].
Proof.
  pose proof (X20_sendMessage_one_request_one_event Fixtures.backend_down
                Fixtures.memory_message (VObject []) Fixtures.open_adapter eq_refl)
    as [_ H].
  exact H.
Defined.

(** X21: an adapter without a context initializes first; when that fails,
    [sendMessage] throws the initialization error, the only request made
    is the one to [/init], no message is posted, and the adapter is left
    without a context, so that the next call tries again. *)
Theorem X21_sendMessage_stops_when_initialization_fails
  (fetch : Adapter.request -> completion Adapter.response)
  (message metadata : value) (this : Adapter.SecondMeAdapter) (e : value) :
  truthy (Adapter.contextId this) = false ->
  (Adapter.initialize fetch this).1.1 = Throw e ->
  Adapter.sendMessage fetch message metadata this
  = (Throw e, this,
     [Adapter.Fetch (Adapter.init_request this);
      Adapter.Emit "error"
        (VObject [("error", e);
                  ("message", VString "Failed to initialize connection")])]).
Proof.
  intros Hctx Hinit. unfold Adapter.sendMessage. rewrite Hctx. simpl.
  unfold Adapter.initialize in *.
  destruct (_ <- fetch _ ;; _) as [[data id]|e']; simpl in *; [done|].
  by injection Hinit as ->.
Qed.

Lemma X21_witness :
  Adapter.sendMessage Fixtures.backend_down (VString "hi") (VObject [])
    Fixtures.new_adapter
  = (Throw (VError "TypeError" "Failed to fetch"), Fixtures.new_adapter,
     [Adapter.Fetch (Adapter.init_request Fixtures.new_adapter);
      Adapter.Emit "error"
        (VObject [("error", VError "TypeError" "Failed to fetch");
                  ("message", VString "Failed to initialize connection")])]).
Proof.
  apply (X21_sendMessage_stops_when_initialization_fails Fixtures.backend_down
           (VString "hi") (VObject []) Fixtures.new_adapter); reflexivity.
Defined.

(** X22: when the initialization succeeds with a context id that is
    truthy, [sendMessage] on an adapter without a context makes two
    requests, [/init] then [/message], the message carries the new context
    id, and the adapter keeps it: the next call does not initialize
    again. *)
Theorem X22_sendMessage_initializes_once
  (fetch : Adapter.request -> completion Adapter.response)
  (message metadata : value) (this : Adapter.SecondMeAdapter)
  (r : Adapter.response) (data id : value) :
  truthy (Adapter.contextId this) = false ->
  fetch (Adapter.init_request this) = Return r ->
  Adapter.ok r = true ->
  Adapter.json r = Return data ->
  get_prop data "contextId" = Return id ->
  truthy id = true ->
  exists this' ev,
    (Adapter.sendMessage fetch message metadata this).1.2 = this'
    /\ Adapter.contextId this' = id
    /\ Adapter.connected this' = true
    /\ (Adapter.sendMessage fetch message metadata this).2
       = [Adapter.Fetch (Adapter.init_request this);
          Adapter.Emit "connected" (VObject [("contextId", id)]);
          Adapter.Fetch (Adapter.message_request this' message metadata); ev]
    /\ exists ev',
         (Adapter.sendMessage fetch message metadata this').2
         = [Adapter.Fetch (Adapter.message_request this' message metadata); ev'].
Proof.
  intros Hctx Hfetch Hok Hjson Hid Htruthy.
  unfold Adapter.sendMessage at 1 2. rewrite Hctx. simpl.
  unfold Adapter.initialize. rewrite Hfetch. simpl. rewrite Hok. simpl.
  rewrite Hjson. simpl. rewrite Hid. simpl.
  set (this' := {| Adapter.apiEndpoint := Adapter.apiEndpoint this;
                   Adapter.autoAuthenticate := Adapter.autoAuthenticate this;
                   Adapter.contextId := id; Adapter.connected := true;
                   Adapter.eventListeners := Adapter.eventListeners this |}).
  assert (Hnext : exists ev',
            (Adapter.sendMessage fetch message metadata this').2
            = [Adapter.Fetch (Adapter.message_request this' message metadata); ev']).
  { rewrite (sendMessage_open fetch message metadata this' Htruthy).
    destruct (_ <- fetch _ ;; _); by eexists. }
  destruct (_ <- fetch (Adapter.message_request this' message metadata) ;; _);
    simpl; exists this'; eexists; repeat split; done.
Qed.

Lemma X22_witness :
  exists this' ev,
    (Adapter.sendMessage Fixtures.backend_up (VString "hi") (VObject [])
       Fixtures.new_adapter).1.2 = this'
    /\ Adapter.contextId this' = VString "ctx-1"
    /\ Adapter.connected this' = true
    /\ (Adapter.sendMessage Fixtures.backend_up (VString "hi") (VObject [])
          Fixtures.new_adapter).2
       = [Adapter.Fetch (Adapter.init_request Fixtures.new_adapter);
          Adapter.Emit "connected" (VObject [("contextId", VString "ctx-1")]);
          Adapter.Fetch (Adapter.message_request this' (VString "hi") (VObject []));
          ev]
    /\ exists ev',
         (Adapter.sendMessage Fixtures.backend_up (VString "hi") (VObject []) this').2
         = [Adapter.Fetch (Adapter.message_request this' (VString "hi") (VObject []));
            ev'].
Proof.
  apply (X22_sendMessage_initializes_once Fixtures.backend_up (VString "hi")
           (VObject []) Fixtures.new_adapter
           (Fixtures.ok_response (VObject [("contextId", VString "ctx-1")]))
           (VObject [("contextId", VString "ctx-1")]) (VString "ctx-1"));
    reflexivity.
Defined.

(** X23: for an event that has listeners of its own or whose name is not
    that of a member every object inherits, [removeEventListener] and
    [addEventListener] return; the first takes away every registration of
    the callback for that event and keeps the other callbacks in their
    order, the second puts the callback last; what an emit of another
    event does is untouched; adding a callback that was not registered
    and removing it again restores the callbacks that an emit invokes.
    For an event without listeners of its own whose name is that of an
    inherited member ([constructor], [toString], ...), the three methods
    throw a TypeError and leave the adapter as it was. *)
Theorem X23_listeners_add_remove
  (event other : string) (callback : nat) (this : Adapter.SecondMeAdapter) :
  other <> event ->
  (is_Some (Adapter.eventListeners this !! event) \/ Object_prototype event = None ->
   exists cbs removed added back,
     Adapter.emitEvent event this = Return cbs
     /\ Adapter.removeEventListener event callback this = (Return tt, removed)
     /\ Adapter.addEventListener event callback this = (Return tt, added)
     /\ Adapter.removeEventListener event callback added = (Return tt, back)
     /\ Adapter.emitEvent event removed
        = Return (List.filter (fun cb => negb (Nat.eqb cb callback)) cbs)
     /\ Adapter.emitEvent event added = Return (cbs ++ [callback])
     /\ Adapter.emitEvent other removed = Adapter.emitEvent other this
     /\ Adapter.emitEvent other added = Adapter.emitEvent other this
     /\ (callback ∉ cbs -> Adapter.emitEvent event back = Return cbs))
  /\ (Adapter.eventListeners this !! event = None ->
      is_Some (Object_prototype event) ->
      Adapter.emitEvent event this
        = Throw (VError "TypeError"
                   "this.eventListeners[event].forEach is not a function")
      /\ Adapter.removeEventListener event callback this
         = (Throw (VError "TypeError"
                     "this.eventListeners[event].filter is not a function"), this)
      /\ Adapter.addEventListener event callback this
         = (Throw (VError "TypeError"
                     "this.eventListeners[event].push is not a function"), this)).
Proof.
  intros Hne. split.
  - intros Hown.
    assert (Hfilter : forall cbs : list nat,
              callback ∉ cbs ->
              List.filter (fun cb => negb (Nat.eqb cb callback)) (cbs ++ [callback])
              = cbs).
    { intros cbs Hfresh. rewrite List.filter_app. simpl. rewrite Nat.eqb_refl. simpl.
      rewrite app_nil_r. induction cbs as [|cb cbs IH]; [done|].
      apply not_elem_of_cons in Hfresh as [Hcb Hfresh]. simpl.
      destruct (Nat.eqb_spec cb callback); [done|]. simpl. by rewrite IH. }
    unfold Adapter.emitEvent, Adapter.removeEventListener, Adapter.addEventListener.
    destruct (Adapter.eventListeners this !! event) as [cbs|] eqn:Hl.
    + exists cbs. eexists _, _, _.
      split; [reflexivity|]. split; [reflexivity|]. split; [reflexivity|].
      simpl. rewrite !lookup_insert_eq. split; [reflexivity|]. simpl.
      rewrite !lookup_insert_eq, !lookup_insert_ne by done.
      repeat (split; [reflexivity|]).
      intros Hfresh. by rewrite Hfilter.
    + destruct Hown as [[x Hx]|Hp]; [done|]. rewrite Hp.
      exists []. eexists _, _, _.
      split; [reflexivity|]. split; [reflexivity|]. split; [reflexivity|].
      simpl. rewrite !lookup_insert_eq. split; [reflexivity|]. simpl.
      rewrite ?lookup_insert_eq, ?lookup_insert_ne, ?Hl, ?Hp by done.
      repeat (split; [reflexivity|]).
      by rewrite Nat.eqb_refl.
  - intros Hl [v Hv].
    unfold Adapter.emitEvent, Adapter.removeEventListener, Adapter.addEventListener.
    by rewrite Hl, Hv.
Qed.

Lemma X23_witness :
  Adapter.emitEvent "message"
    (Adapter.removeEventListener "message" 1%nat Fixtures.open_adapter).2
  = Return [2%nat]
  /\ Adapter.addEventListener "constructor" 1%nat Fixtures.open_adapter
     = (Throw (VError "TypeError"
                 "this.eventListeners[event].push is not a function"),
        Fixtures.open_adapter).
Proof.
  split.
  - destruct (X23_listeners_add_remove "message" "error" 1%nat Fixtures.open_adapter)
      as [H _]; [discriminate|].
    destruct H as (cbs & removed & added & back & Hcbs & Hrem & _ & _ & Hemit & _).
    { left. by eexists. }
    rewrite Hrem. simpl. rewrite Hemit.
    injection Hcbs as <-. reflexivity.
  - destruct (X23_listeners_add_remove "constructor" "error" 1%nat
                Fixtures.open_adapter) as [_ H]; [discriminate|].
    destruct H as (_ & _ & Hadd); [reflexivity | by eexists |].
    exact Hadd.
Defined.

(* ===================================================================== *)
(** ** Properties of the Veo2 tools *)
(* ===================================================================== *)

(** X24: when the adapter rejects the first registration,
    [registerVeo2Tools] rejects with that error; [generate_video] is
    registered with the client all the same, and [apply_video_style] is
    not registered by this call. *)
Theorem X24_registerVeo2Tools_stops_at_first_rejection
  (adapter_registerTool : value -> completion value)
  (generateVideo : value -> completion value) (client : MCP.MCPClient)
  (e : value) :
  adapter_registerTool
    (MCP.toolDefinition "generate_video" (VString "Generate a video using Veo 2 API")
       Veo2.generate_video_schema) = Throw e ->
  (Veo2.registerVeo2Tools adapter_registerTool generateVideo client).1 = Throw e
  /\ (forall args,
        MCP.executeTool "generate_video" args
          (Veo2.registerVeo2Tools adapter_registerTool generateVideo client).2
        = Veo2.generate_video generateVideo args)
  /\ map_get "apply_video_style"
       (MCP.tools (Veo2.registerVeo2Tools adapter_registerTool generateVideo client).2)
     = map_get "apply_video_style" (MCP.tools client).
Proof.
  intros Hrej. unfold Veo2.registerVeo2Tools, MCP.registerTool. rewrite Hrej. simpl.
  split; [done|]. split.
  - intros args. unfold MCP.executeTool. simpl. by rewrite map_get_set_eq.
  - by apply map_get_set_ne.
Qed.

Lemma X24_witness :
  (Veo2.registerVeo2Tools Fixtures.rejecting Fixtures.video_service
     Fixtures.empty_client).1
  = Throw (VError "Error" "Failed to send message: 503 Service Unavailable")
  /\ map_get "apply_video_style"
       (MCP.tools (Veo2.registerVeo2Tools Fixtures.rejecting Fixtures.video_service
                     Fixtures.empty_client).2) = None.
Proof.
  destruct (X24_registerVeo2Tools_stops_at_first_rejection Fixtures.rejecting
              Fixtures.video_service Fixtures.empty_client
              (VError "Error" "Failed to send message: 503 Service Unavailable")
              eq_refl) as (H1 & _ & H2).
  split; [exact H1 | exact H2].
Defined.

(** X25: when the adapter accepts both registrations,
    [registerVeo2Tools] returns and the client runs the two handlers under
    their names; the entries of other names are untouched. *)
Theorem X25_registerVeo2Tools_registers_both
  (adapter_registerTool : value -> completion value)
  (generateVideo : value -> completion value) (client : MCP.MCPClient)
  (k : string) :
  (forall definition, exists answer, adapter_registerTool definition = Return answer) ->
  k <> "generate_video" -> k <> "apply_video_style" ->
  (Veo2.registerVeo2Tools adapter_registerTool generateVideo client).1 = Return tt
  /\ (forall args,
        MCP.executeTool "generate_video" args
          (Veo2.registerVeo2Tools adapter_registerTool generateVideo client).2
        = Veo2.generate_video generateVideo args)
  /\ (forall args,
        MCP.executeTool "apply_video_style" args
          (Veo2.registerVeo2Tools adapter_registerTool generateVideo client).2
        = Veo2.apply_video_style args)
  /\ map_get k
       (MCP.tools (Veo2.registerVeo2Tools adapter_registerTool generateVideo client).2)
     = map_get k (MCP.tools client).
Proof.
  intros Hacc Hk1 Hk2. unfold Veo2.registerVeo2Tools, MCP.registerTool.
  destruct (Hacc (MCP.toolDefinition "generate_video"
                    (VString "Generate a video using Veo 2 API")
                    Veo2.generate_video_schema)) as [a1 ->].
  destruct (Hacc (MCP.toolDefinition "apply_video_style"
                    (VString "Apply a style to an existing video using Veo 2")
                    Veo2.apply_video_style_schema)) as [a2 ->].
  simpl. split; [done|]. unfold MCP.executeTool. simpl. repeat split.
  - intros args. rewrite map_get_set_ne by done. by rewrite map_get_set_eq.
  - intros args. by rewrite map_get_set_eq.
  - by rewrite !map_get_set_ne.
Qed.

Lemma X25_witness :
  (Veo2.registerVeo2Tools Fixtures.accepting Fixtures.video_service
     Fixtures.client).1 = Return tt
  /\ map_get "echo"
       (MCP.tools (Veo2.registerVeo2Tools Fixtures.accepting Fixtures.video_service
                     Fixtures.client).2) = Some Fixtures.echo.
Proof.
  destruct (X25_registerVeo2Tools_registers_both Fixtures.accepting
              Fixtures.video_service Fixtures.client "echo")
    as (H1 & _ & _ & H2); [by eexists | discriminate | discriminate |].
  split; [exact H1 | exact H2].
Defined.





(** X28: [generate_video] calls the video service, if at all, with options
    of five fields in which [prompt], [duration] and [aspectRatio] are
    truthy and [enhancePrompt] is neither undefined nor null: two services
    that agree on such options give the same outcome. *)
Theorem X28_generate_video_passes_well_formed_options
  (generateVideo generateVideo' : value -> completion value) (args : value) :
  (forall options, Veo2.well_formed_options options ->
                   generateVideo' options = generateVideo options) ->
  Veo2.generate_video generateVideo' args = Veo2.generate_video generateVideo args.
Proof.
  intros Hsame. unfold Veo2.generate_video.
  destruct (destructure args "prompt" "args"); simpl; [|done].
  destruct (truthy (Veo2.field args "prompt")) eqn:Hprompt; simpl; [|done].
  rewrite Hsame; [done|].
  unfold Veo2.well_formed_options, Veo2.videoOptions.
  eexists _, _, _, _, _. split; [reflexivity|].
  split; [done|]. unfold logical_or, coalesce.
  split; [|split].
  - by destruct (truthy (Veo2.field args "duration")) eqn:H.
  - by destruct (truthy (Veo2.field args "aspectRatio")) eqn:H.
  - by destruct (nullish (Veo2.field args "enhancePrompt")) eqn:H.
Qed.

Lemma X28_witness :
  Veo2.generate_video Fixtures.no_service (VObject [("prompt", VString "a cat")])
  = Veo2.generate_video
      (fun options =>
         if truthy (Veo2.field options "duration") then Fixtures.no_service options
         else Fixtures.video_service options)
      (VObject [("prompt", VString "a cat")]).
Proof.
  apply (X28_generate_video_passes_well_formed_options
           (fun options =>
              if truthy (Veo2.field options "duration")
              then Fixtures.no_service options
              else Fixtures.video_service options)
           Fixtures.no_service (VObject [("prompt", VString "a cat")])).
  intros options (p & d & a & i & e & -> & _ & Hd & _).
  unfold Veo2.field. simpl. by rewrite Hd.
Defined.

(* ===================================================================== *)
(** ** Properties of the video response reader *)
(* ===================================================================== *)

Section VertexResponse.

Import Veo2Service.

(** What the [catch] block makes of an error object. *)
Lemma wrap_error (n m : string) :
  (message <- get_prop (VError n m) "message" ;;
   Throw (new_Error ("Failed to extract video from response: "
                     +:+ to_String message)))
  = @Throw value (VError "Error" ("Failed to extract video from response: " +:+ m)).
Proof. reflexivity. Qed.

Lemma get_prop_throws (v : value) (k : string) : throws_error_objects (get_prop v k).
Proof. destruct v; simpl; try done; by eexists _, _. Qed.

Lemma length_of_throws (v : value) : throws_error_objects (length_of v).
Proof. destruct v; simpl; try done; by eexists _, _. Qed.

Lemma first_of_throws (v : value) : throws_error_objects (first_of v).
Proof. destruct v as [| | | |[|c s]| | | |]; simpl; try done; by eexists _, _. Qed.

Lemma find_video_throws (parts : list value) : throws_error_objects (find_video parts).
Proof.
  induction parts as [|part parts IH]; simpl; [done|].
  pose proof (get_prop_throws part "video") as H.
  destruct (get_prop part "video") as [video|e]; simpl; [|done].
  by destruct (truthy video).
Qed.

Lemma parts_find_throws (v : value) : throws_error_objects (parts_find v).
Proof.
  destruct v; simpl; try (by eexists _, _). apply find_video_throws.
Qed.

Lemma find_video_found (parts : list value) (part : value) :
  find_video parts = Return part -> truthy part = true ->
  exists video, get_prop part "video" = Return video /\ truthy video = true.
Proof.
  induction parts as [|p parts IH]; simpl.
  - intros [= <-]. done.
  - destruct (get_prop p "video") as [video|e] eqn:Hv; simpl; [|done].
    destruct (truthy video) eqn:Ht; [|exact IH].
    intros [= <-] _. by exists video.
Qed.

End VertexResponse.

Ltac read_step :=
  match goal with
  | H : exists n m, _ = VError n m |- _ =>
      destruct H as (? & ? & ->); simpl; by eexists
  | |- context [get_prop ?v ?k] =>
      let H := fresh "H" in
      pose proof (get_prop_throws v k) as H;
      destruct (get_prop v k) eqn:?; simpl in *
  | |- context [Veo2Service.length_of ?v] =>
      let H := fresh "H" in
      pose proof (length_of_throws v) as H;
      destruct (Veo2Service.length_of v) eqn:?; simpl in *
  | |- context [Veo2Service.first_of ?v] =>
      let H := fresh "H" in
      pose proof (first_of_throws v) as H;
      destruct (Veo2Service.first_of v) eqn:?; simpl in *
  | |- context [Veo2Service.parts_find ?v] =>
      let H := fresh "H" in
      pose proof (parts_find_throws v) as H;
      destruct (Veo2Service.parts_find v) eqn:?; simpl in *
  | |- context [if Veo2Service.is_zero ?v then _ else _] =>
      destruct (Veo2Service.is_zero v) eqn:?; simpl in *
  | |- context [if negb (truthy ?v) then _ else _] =>
      destruct (truthy v) eqn:?; simpl in *
  end.

(** X29: [processVertexResponse] either returns [{videoUrl: uri}] with a
    truthy [uri], or throws an [Error] whose message starts with "Failed
    to extract video from response: "; whatever the response looks like,
    nothing else comes out of it. *)
Theorem X29_processVertexResponse_outcomes (vertexResponse : value) :
  match Veo2Service.processVertexResponse vertexResponse with
  | Return r => exists uri, r = VObject [("videoUrl", uri)] /\ truthy uri = true
  | Throw e =>
      exists m, e = VError "Error" ("Failed to extract video from response: " +:+ m)
  end.
Proof.
  unfold Veo2Service.processVertexResponse.
  repeat read_step; try (by eexists).
Qed.


(** X30: when the first candidate has a truthy [content] whose [parts] is
    an array, and the first part with a truthy [video] has a truthy
    [video.uri], [processVertexResponse] returns that uri as [videoUrl];
    the candidates after the first are not looked at. *)
Theorem X30_processVertexResponse_reads_first_candidate
  (vertexResponse first content part video uri : value)
  (others parts : list value) :
  get_prop vertexResponse "candidates" = Return (VArray (first :: others)) ->
  get_prop first "content" = Return content ->
  truthy content = true ->
  get_prop content "parts" = Return (VArray parts) ->
  Veo2Service.find_video parts = Return part ->
  truthy part = true ->
  get_prop part "video" = Return video ->
  get_prop video "uri" = Return uri ->
  truthy uri = true ->
  Veo2Service.processVertexResponse vertexResponse
  = Return (VObject [("videoUrl", uri)]).
Proof.
  intros Hc Hfirst Hcontent Hparts Hfind Hpart Hvideo Huri Htruthy.
  destruct (find_video_found parts part Hfind Hpart) as (video' & Hv' & Hvt).
  rewrite Hvideo in Hv'. injection Hv' as <-.
  assert (Hne : parts <> []).
  { intros ->. simpl in Hfind. injection Hfind as <-. discriminate Hpart. }
  destruct parts as [|p ps]; [done|].
  unfold Veo2Service.processVertexResponse.
  rewrite Hc. cbn -[Veo2Service.find_video].
  rewrite Hfirst. cbn -[Veo2Service.find_video].
  rewrite Hcontent. cbn -[Veo2Service.find_video].
  rewrite Hparts. cbn -[Veo2Service.find_video].
  rewrite Hfind. cbn -[Veo2Service.find_video].
  rewrite Hpart. cbn -[Veo2Service.find_video].
  rewrite Hvideo. cbn -[Veo2Service.find_video].
  rewrite Hvt. cbn -[Veo2Service.find_video].
  rewrite Huri. cbn -[Veo2Service.find_video].
  by rewrite Htruthy.
Qed.

Lemma X30_witness :
  Veo2Service.processVertexResponse Fixtures.vertex_answer
  = Return (VObject [("videoUrl", VString "gs://bucket/cat.mp4")]).
Proof.
  apply (X30_processVertexResponse_reads_first_candidate Fixtures.vertex_answer
           (VObject
              [("content",
                VObject
                  [("parts",
                    VArray
                      [VObject [("text", VString "here is your video")];
                       VObject [("video",
                                 VObject [("uri", VString "gs://bucket/cat.mp4")])]])])])
           (VObject
              [("parts",
                VArray
                  [VObject [("text", VString "here is your video")];
                   VObject [("video",
                             VObject [("uri", VString "gs://bucket/cat.mp4")])]])])
           (VObject [("video", VObject [("uri", VString "gs://bucket/cat.mp4")])])
           (VObject [("uri", VString "gs://bucket/cat.mp4")])
           (VString "gs://bucket/cat.mp4")
           [VNull]
           [VObject [("text", VString "here is your video")];
            VObject [("video", VObject [("uri", VString "gs://bucket/cat.mp4")])]]);
    reflexivity.
Defined.
